(** * Backstage: catalog identity lookup and the cost-insights page loader

    A shallow embedding of

    - [CatalogIdentityClient.findUser], the single-user lookup that wraps the
      catalog API, and
    - [CostInsightsPage], the React component whose effect [getInsights]
      fetches the cost data of the selected group,

    followed by the properties the specification states about them.

    JavaScript objects used as string-keyed maps are [gmap string _];
    [Maybe<T>] is [option T] with [None] for [null]; a settled promise is a
    value of [Promise]; [throw] is the [Throw] completion. *)

From stdpp Require Import base option list strings gmap fin_maps.

Set Default Proof Using "Type".

(** ** Shared vocabulary *)

(** Result of running a (possibly awaited) block: it completes normally with
    a value or abruptly with a thrown value. *)
Inductive Completion (E A : Type) : Type :=
  | Normal (a : A)
  | Throw (e : E).
Arguments Normal {E A} a.
Arguments Throw {E A} e.

Abbreviation Maybe := option (only parsing).

(** JavaScript truthiness of a [Maybe<string>]: [null] and the empty string
    are falsy.  When truthy, the narrowed string is returned. *)
Definition truthy (s : Maybe string) : option string :=
  match s with
  | Some EmptyString => None
  | Some v => Some v
  | None => None
  end.

(** ** The identity client (class [CatalogIdentityClient]) *)

Module CatalogIdentityClient.

(** [type UserQuery = { annotations: Record<string, string> }] *)
Record UserQuery : Type := { annotations : gmap string string }.

(** The two errors [findUser] constructs, and a rejection of the awaited
    catalog call, which the [await] rethrows as it is. *)
Inductive Thrown (CatalogFailure : Type) : Type :=
  | ConflictError (message : string)
  | NotFoundError (message : string)
  | Rethrown (e : CatalogFailure).
Arguments ConflictError {CatalogFailure} message.
Arguments NotFoundError {CatalogFailure} message.
Arguments Rethrown {CatalogFailure} e.

(** The template literal [`metadata.annotations.${key}`]. *)
Definition annotationField (key : string) : string :=
  "metadata.annotations." +:+ key.

(** The loop body [filter[`metadata.annotations.${key}`] = value]. *)
Definition assignAnnotation (filter : gmap string string)
    (entry : string * string) : gmap string string :=
  <[annotationField entry.1 := entry.2]> filter.

(** Lines 41-46 on an explicit list of entries ([Object.entries]). *)
Definition filterOfEntries (entries : list (string * string))
    : gmap string string :=
  foldl assignAnnotation {["kind" := "user"]} entries.

Definition buildFilter (query : UserQuery) : gmap string string :=
  filterOfEntries (map_to_list (annotations query)).

Section Lookup.
(** Entities are opaque records of the catalog model; a failure of the
    catalog call is whatever that call rejects with. *)
Context {UserEntity CatalogFailure : Type}.

(** [CatalogApi.getEntities({ filter })], awaited. *)
Record CatalogApi : Type := {
  getEntities : gmap string string →
                Completion CatalogFailure (list UserEntity)
}.

(** Lines 50-58.  [users[0]] is [users !! 0]; [None] stands for
    [undefined], which the cast [as UserEntity] would let through. *)
Definition checkUsers (users : list UserEntity)
    : Completion (Thrown CatalogFailure) (option UserEntity) :=
  if negb (length users =? 1) then
    if 1 <? length users then
      Throw (ConflictError "User lookup resulted in multiple matches")
    else
      Throw (NotFoundError "User not found")
  else Normal (users !! 0).

Definition findUser (catalogApi : CatalogApi) (query : UserQuery)
    : Completion (Thrown CatalogFailure) (option UserEntity) :=
  let filter := buildFilter query in
  match getEntities catalogApi filter with
  | Throw e => Throw (Rethrown e)
  | Normal users => checkUsers users
  end.
End Lookup.

Arguments CatalogApi : clear implicits.

(** *** A catalog with two users, to run the lookup on *)

(** Answers a filter on the e-mail annotation; used to run the lookup. *)
Definition sampleCatalog : CatalogApi string unit :=
  {| getEntities filter :=
       if decide (filter !! "kind" = Some "user") then
         match filter !! "metadata.annotations.example.com/email" with
         | Some "alice@example.com" => Normal ["user:alice"]
         | Some "team@example.com" => Normal ["user:alice"; "user:bob"]
         | Some _ => Normal []
         | None => Throw ()
         end
       else Throw () |}.

Definition byEmail (email : string) : UserQuery :=
  {| annotations := {["example.com/email" := email]} |}.

End CatalogIdentityClient.

(** ** The cost-insights page (component [CostInsightsPage]) *)

Module CostInsightsPage.

(** A JavaScript [Error]; the page only reads its [message]. *)
Record Error : Type := { message : string }.

(** A promise as its awaiter sees it: fulfilled with a value, or rejected
    at some tick of the event loop with a reason.  The reason is whatever
    the promise was rejected with: an [Error], or nothing ([null] or
    [undefined], here [None]). *)
Inductive Promise (A : Type) : Type :=
  | Fulfilled (a : A)
  | Rejected (tick : nat) (reason : Maybe Error).
Arguments Fulfilled {A} a.
Arguments Rejected {A} tick reason.

(** [Promise.all] of two promises: fulfilled with both values when both are
    fulfilled, otherwise rejected with the rejection that happens first (the
    earlier array position wins when the ticks are equal). *)
Definition both {A B : Type} (p : Promise A) (q : Promise B)
    : Promise (A * B) :=
  match p, q with
  | Fulfilled a, Fulfilled b => Fulfilled (a, b)
  | Rejected t e, Fulfilled _ => Rejected t e
  | Fulfilled _, Rejected t e => Rejected t e
  | Rejected t1 e1, Rejected t2 e2 =>
      if t2 <? t1 then Rejected t2 e2 else Rejected t1 e1
  end.

(** [Promise.all([p1, p2, p3, p4])]. *)
Definition promiseAll {A B C D : Type} (p1 : Promise A) (p2 : Promise B)
    (p3 : Promise C) (p4 : Promise D) : Promise (A * B * C * D) :=
  both (both (both p1 p2) p3) p4.

(** Modelled from the spec: the loading flags of [useLoading] and the props
    [mapLoadingToProps] derives from them ([hooks] and [./selector] are not
    part of the sources).  The loading state is an object of boolean flags,
    one per loading action, [true] meaning "loading"; a dispatch merges a
    partial object of flags into it. *)
Definition ACTION_INITIAL : string := "cost-insights-initial".

(** Modelled from the spec: the loading action of the page's own fetch,
    the flag [dispatchInsights] sets. *)
Definition ACTION_PAGE : string := "cost-insights-page".

(** Modelled from the spec: the reducer of [useLoading], which merges the
    dispatched flags over the current ones. *)
Definition mergeLoading (action state : gmap string bool) : gmap string bool :=
  action ∪ state.

(** Modelled from the spec: the partial object [dispatchNone] dispatches,
    every listed action "not loading". *)
Definition settled (actions : list string) : gmap string bool :=
  list_to_map ((λ a, (a, false)) <$> actions).

(** Modelled from the spec: a flag as [mapLoadingToProps] hands it to the
    component ([loadingInitial]); a missing key is [undefined], hence
    falsy. *)
Definition flag (state : gmap string bool) (action : string) : bool :=
  default false (state !! action).

Section Page.
(** The domain records of [../../types], the duration and interval
    encodings of [../../utils/duration] and the billing date are opaque
    to the page. *)
Context {Duration BillingDate Intervals Project Alert Cost MetricData : Type}.

(** [pageFilters] of [useFilters]. *)
Record PageFilters : Type := {
  group : Maybe string;
  project : Maybe string;
  duration : Duration;
  metric : Maybe string
}.

(** The cost API client.  Each method is asynchronous: a call returns a
    promise and does not throw. *)
Record CostInsightsApi : Type := {
  getGroupProjects : string → Promise (list Project);
  getAlerts : string → Promise (list Alert);
  getDailyMetricData : string → Intervals → Promise MetricData;
  getProjectDailyCost : string → Intervals → Promise Cost;
  getGroupDailyCost : string → Intervals → Promise Cost
}.

(** The calls made on the client, in the order they are made. *)
Inductive Request : Type :=
  | GetGroupProjects (g : string)
  | GetAlerts (g : string)
  | GetDailyMetricData (m : string) (i : Intervals)
  | GetProjectDailyCost (p : string) (i : Intervals)
  | GetGroupDailyCost (g : string) (i : Intervals).

(** The five [useState] cells of the component. *)
Record PageState : Type := {
  projects : Maybe (list Project);
  dailyCost : Maybe Cost;
  metricData : Maybe MetricData;
  alerts : Maybe (list Alert);
  error : Maybe Error
}.

Definition initialState : PageState :=
  {| projects := None; dailyCost := None; metricData := None;
     alerts := None; error := None |}.

(** What a run of the effect can change or leave behind. *)
Record World : Type := {
  page : PageState;
  loading : gmap string bool;
  requests : list Request
}.

(** What the effect closes over. *)
Record Props : Type := {
  client : CostInsightsApi;
  pageFilters : PageFilters;
  lastCompleteBillingDate : BillingDate;
  loadingActions : list string;
  loadingGroups : bool;
  loadingBillingDate : bool
}.

(** [intervalsOf] of [../../utils/duration]. *)
Variable intervalsOf : Duration → BillingDate → Intervals.

(** *** Actions: state passing with abrupt completion *)

Definition Action (A : Type) : Type :=
  World → Completion (Maybe Error) A * World.

Definition ret {A : Type} (a : A) : Action A := λ w, (Normal a, w).

Definition bind {A B : Type} (m : Action A) (k : A → Action B) : Action B :=
  λ w, match m w with
       | (Normal a, w') => k a w'
       | (Throw e, w') => (Throw e, w')
       end.

(** [try { body } catch (e) { handler } finally { finalizer }]. *)
Definition tryCatchFinally (body : Action unit)
    (handler : Maybe Error → Action unit) (finalizer : Action unit)
    : Action unit :=
  λ w,
    let '(c, w1) :=
      match body w with
      | (Throw e, w') => handler e w'
      | done => done
      end in
    match finalizer w1 with
    | (Normal _, w2) => (c, w2)
    | (Throw e, w2) => (Throw e, w2)
    end.

(** [await p]. *)
Definition await {A : Type} (p : Promise A) : Action A :=
  λ w, match p with
       | Fulfilled a => (Normal a, w)
       | Rejected _ e => (Throw e, w)
       end.

(** A call on the client: the request is recorded, the promise returned. *)
Definition call {A : Type} (r : Request) (p : Promise A)
    : Action (Promise A) :=
  λ w, (Normal p, {| page := page w; loading := loading w;
                     requests := requests w ++ [r] |}).

Definition modifyPage (f : PageState → PageState) : Action unit :=
  λ w, (Normal (), {| page := f (page w); loading := loading w;
                      requests := requests w |}).

Definition setProjects (v : Maybe (list Project)) : Action unit :=
  modifyPage (λ s, {| projects := v; dailyCost := dailyCost s;
                      metricData := metricData s; alerts := alerts s;
                      error := error s |}).

Definition setDailyCost (v : Maybe Cost) : Action unit :=
  modifyPage (λ s, {| projects := projects s; dailyCost := v;
                      metricData := metricData s; alerts := alerts s;
                      error := error s |}).

Definition setMetricData (v : Maybe MetricData) : Action unit :=
  modifyPage (λ s, {| projects := projects s; dailyCost := dailyCost s;
                      metricData := v; alerts := alerts s;
                      error := error s |}).

Definition setAlerts (v : Maybe (list Alert)) : Action unit :=
  modifyPage (λ s, {| projects := projects s; dailyCost := dailyCost s;
                      metricData := metricData s; alerts := v;
                      error := error s |}).

Definition setError (v : Maybe Error) : Action unit :=
  modifyPage (λ s, {| projects := projects s; dailyCost := dailyCost s;
                      metricData := metricData s; alerts := alerts s;
                      error := v |}).

(** Modelled from the spec: [dispatch] of [useLoading], which applies the
    reducer to the loading state. *)
Definition dispatch (action : gmap string bool) : Action unit :=
  λ w, (Normal (), {| page := page w;
                      loading := mergeLoading action (loading w);
                      requests := requests w |}).

(** Modelled from the spec: [dispatchInitial] of [mapLoadingToProps], which
    sets the flag of the initial load. *)
Definition dispatchLoadingInitial (isLoading : bool) : Action unit :=
  dispatch {[ACTION_INITIAL := isLoading]}.

(** Modelled from the spec: [dispatchInsights] of [mapLoadingToProps], which
    sets the flag of the page's fetch. *)
Definition dispatchLoadingInsights (isLoading : bool) : Action unit :=
  dispatch {[ACTION_PAGE := isLoading]}.

(** Modelled from the spec: [dispatchNone] of [mapLoadingToProps], which
    clears the flag of every listed action. *)
Definition dispatchLoadingNone (actions : list string) : Action unit :=
  dispatch (settled actions).

(** The element type of a fulfilled promise seen at a wider type
    ([T] read as [Maybe<T>]). *)
Definition widen {A B : Type} (f : A → B) (p : Promise A) : Promise B :=
  match p with
  | Fulfilled a => Fulfilled (f a)
  | Rejected t e => Rejected t e
  end.

Notation "'let*' x ':=' m 'in' k" := (bind m (λ x, k))
  (at level 10, x pattern, m at level 100, k at level 200,
   only parsing).
Notation "m '>>' k" := (bind m (λ _, k))
  (at level 90, right associativity, only parsing).

(** *** The effect (lines 96-151) *)

Definition getInsights (props : Props) : Action unit :=
  let api := client props in
  let filters := pageFilters props in
  setError None >>
  tryCatchFinally
    (match truthy (group filters) with
     | Some g =>
         dispatchLoadingInsights true >>
         let intervals :=
           intervalsOf (duration filters) (lastCompleteBillingDate props) in
         let* p1 := call (GetGroupProjects g) (getGroupProjects api g) in
         let* p2 := call (GetAlerts g) (getAlerts api g) in
         let* p3 :=
           match truthy (metric filters) with
           | Some m =>
               call (GetDailyMetricData m intervals)
                    (widen Some (getDailyMetricData api m intervals))
           | None => ret (Fulfilled None)
           end in
         let* p4 :=
           match truthy (project filters) with
           | Some p =>
               call (GetProjectDailyCost p intervals)
                    (getProjectDailyCost api p intervals)
           | None =>
               call (GetGroupDailyCost g intervals)
                    (getGroupDailyCost api g intervals)
           end in
         let* (fetchedProjects, fetchedAlerts, fetchedMetricData,
               fetchedDailyCost) := await (promiseAll p1 p2 p3 p4) in
         setProjects (Some fetchedProjects) >>
         setAlerts (Some fetchedAlerts) >>
         setMetricData fetchedMetricData >>
         setDailyCost (Some fetchedDailyCost)
     | None => dispatchLoadingNone (loadingActions props)
     end)
    (λ e, setError e >> dispatchLoadingNone (loadingActions props))
    (dispatchLoadingInitial false >> dispatchLoadingInsights false).

(** Lines 137-140: the run waits for the metadata. *)
Definition effect (props : Props) : Action unit :=
  if negb (loadingGroups props && loadingBillingDate props)
  then getInsights props
  else ret ().

(** *** The project selector (lines 90-94) *)

Definition setProject (selected : Maybe string) (filters : PageFilters)
    : PageFilters :=
  {| group := group filters;
     project := if decide (selected = Some "all") then None else selected;
     duration := duration filters;
     metric := metric filters |}.

(** *** What the component returns (lines 153-294) *)

Inductive View : Type :=
  | Progress
  | MaterialAlert (text : string)
  | NoGroups
  | Insights (owner : string) (shownAlerts : list Alert) (cost : Cost)
      (metrics : Maybe MetricData) (selectable : list Project)
      (selected : Maybe string).

Definition render (filters : PageFilters) (w : World) : View :=
  if flag (loading w) ACTION_INITIAL then Progress
  else
    match error (page w) with
    | Some e => MaterialAlert (message e)
    | None =>
        match truthy (group filters) with
        | None => NoGroups
        | Some g =>
            match dailyCost (page w), alerts (page w) with
            | Some c, Some a =>
                Insights g a c (metricData (page w))
                  (default [] (projects (page w))) (project filters)
            | _, _ =>
                MaterialAlert
                  ("Error: Could not fetch cost insights data for team "
                     +:+ g)
            end
        end
    end.

(** *** Observing a run *)

(** How the client settles a recorded call, the value forgotten. *)
Definition answer (api : CostInsightsApi) (r : Request) : Promise unit :=
  match r with
  | GetGroupProjects g => widen (λ _, ()) (getGroupProjects api g)
  | GetAlerts g => widen (λ _, ()) (getAlerts api g)
  | GetDailyMetricData m i => widen (λ _, ()) (getDailyMetricData api m i)
  | GetProjectDailyCost p i => widen (λ _, ()) (getProjectDailyCost api p i)
  | GetGroupDailyCost g i => widen (λ _, ()) (getGroupDailyCost api g i)
  end.

Definition rejects (api : CostInsightsApi) (r : Request) : bool :=
  match answer api r with
  | Fulfilled _ => false
  | Rejected _ _ => true
  end.

(** The third and fourth elements of the array given to [Promise.all]
    (lines 114-116 and 117-119), as promises. *)
Definition metricDataPromise (api : CostInsightsApi) (filters : PageFilters)
    (intervals : Intervals) : Promise (Maybe MetricData) :=
  match truthy (metric filters) with
  | Some m => widen Some (getDailyMetricData api m intervals)
  | None => Fulfilled None
  end.

Definition dailyCostPromise (api : CostInsightsApi) (filters : PageFilters)
    (g : string) (intervals : Intervals) : Promise Cost :=
  match truthy (project filters) with
  | Some p => getProjectDailyCost api p intervals
  | None => getGroupDailyCost api g intervals
  end.

(** The calls that building the array makes (lines 112-119), in order. *)
Definition arrayCalls (filters : PageFilters) (g : string)
    (intervals : Intervals) : list Request :=
  [GetGroupProjects g; GetAlerts g]
  ++ match truthy (metric filters) with
     | Some m => [GetDailyMetricData m intervals]
     | None => []
     end
  ++ [match truthy (project filters) with
      | Some p => GetProjectDailyCost p intervals
      | None => GetGroupDailyCost g intervals
      end].

(** The world a run ends in, and the calls it added to the log. *)
Definition after (props : Props) (w : World) : World :=
  (getInsights props w).2.

Definition issued (props : Props) (w : World) : list Request :=
  drop (length (requests w)) (requests (after props w)).

End Page.

Arguments PageFilters : clear implicits.
Arguments CostInsightsApi : clear implicits.
Arguments Request : clear implicits.
Arguments PageState : clear implicits.
Arguments World : clear implicits.
Arguments Props : clear implicits.
Arguments View : clear implicits.

(** *** The components of a view (lines 153-294) *)

Section Components.
Context {BillingDate Project Alert Cost MetricData : Type}.
Context {Group Currency DateAggregation : Type}.

(** What the remaining hooks hand to the component: [useGroups],
    [useCurrency], [useConfig] with its [currencies], and
    [featureFlags.isActive('cost-insights-currencies')]. *)
Record Chrome : Type := {
  groups : list Group;
  currency : Currency;
  currencies : list Currency;
  currenciesActive : bool
}.

(** The components of the returned tree with their data props, in document
    order.  Containers that only lay out their children ([Box], [Grid],
    [Container], fragments) are not listed, [CostInsightsLayout] is listed
    before its children, and the [onSelect] callbacks are not recorded. *)
Inductive Component : Type :=
  | ProgressBar
  | ErrorAlert (text : string)
  | CostInsightsLayout (ofGroups : list Group)
  | CopyUrlToClipboard
  | CostInsightsSupportButton
  | CostInsightsHeaderNoGroups
  | Divider
  | WhyCostsMatter
  | CostInsightsNavigation (alertCount : nat)
  | CostInsightsHeader (owner : string) (ofGroups : list Group)
      (hasCostData : bool) (alertCount : nat)
  | AlertActionCardList (ofAlerts : list Alert)
  | CostOverviewTitle (asOf : BillingDate)
  | CurrencySelect (current : Currency) (choices : list Currency)
  | ProjectSelect (current : Maybe string) (choices : list Project)
  | CostOverviewCard (dailyCostData : Cost) (metrics : Maybe MetricData)
  | AlertInsights (ofAlerts : list Alert)
  | ProductInsights.

(** [dailyCost.aggregation] of [../../types]. *)
Variable aggregation : Cost → list DateAggregation.

(** [!!xs.length] *)
Definition nonEmpty {A : Type} (xs : list A) : bool :=
  negb (length xs =? 0).

(** [CostOverviewBanner] (lines 191-222). *)
Definition costOverviewBanner (chrome : Chrome) (date : BillingDate)
    (selected : Maybe string) (selectable : list Project)
    : list Component :=
  [CostOverviewTitle date]
  ++ (if currenciesActive chrome
      then [CurrencySelect (currency chrome) (currencies chrome)]
      else [])
  ++ [ProjectSelect selected selectable].

(** The tree each [return] of the component builds. *)
Definition components (chrome : Chrome) (date : BillingDate)
    (view : View Project Alert Cost MetricData) : list Component :=
  match view with
  | Progress => [ProgressBar]
  | MaterialAlert text => [ErrorAlert text]
  | NoGroups =>
      [CostInsightsLayout (groups chrome); CopyUrlToClipboard;
       CostInsightsSupportButton; CostInsightsHeaderNoGroups; Divider;
       WhyCostsMatter]
  | Insights owner shownAlerts cost metrics selectable selected =>
      [CostInsightsLayout (groups chrome);
       CostInsightsNavigation (length shownAlerts);
       CopyUrlToClipboard; CostInsightsSupportButton;
       CostInsightsHeader owner (groups chrome)
         (nonEmpty (aggregation cost)) (length shownAlerts)]
      ++ (if nonEmpty shownAlerts
          then [AlertActionCardList shownAlerts; Divider] else [])
      ++ costOverviewBanner chrome date selected selectable
      ++ (if nonEmpty (aggregation cost)
          then [CostOverviewCard cost metrics] else [])
      ++ [WhyCostsMatter]
      ++ (if nonEmpty shownAlerts then [AlertInsights shownAlerts] else [])
      ++ (if negb (nonEmpty shownAlerts) then [Divider] else [])
      ++ [ProductInsights]
  end.

(** Whether a component is the [Divider], to count the dividers of a
    view. *)
Definition isDivider (c : Component) : bool :=
  match c with
  | Divider => true
  | _ => false
  end.

End Components.

Arguments Chrome : clear implicits.
Arguments Component : clear implicits.

(** *** A client and filters to run the page on *)

Definition sampleIntervals (d date : string) : string :=
  "R2/" +:+ d +:+ "/" +:+ date.

Definition sampleClient
    : CostInsightsApi string string string string string :=
  {| getGroupProjects g := Fulfilled ["p1"; "p2"];
     getAlerts g := Fulfilled ["idle-cluster"];
     getDailyMetricData m i := Fulfilled ("series of " +:+ m);
     getProjectDailyCost p i := Fulfilled ("cost of project " +:+ p);
     getGroupDailyCost g i := Fulfilled ("cost of group " +:+ g) |}.

(** The alerts call fails at tick 3, the group cost call at tick 1. *)
Definition failingClient
    : CostInsightsApi string string string string string :=
  {| getGroupProjects g := Fulfilled ["p1"; "p2"];
     getAlerts g := Rejected 3 (Some {| message := "alerts unavailable" |});
     getDailyMetricData m i := Fulfilled ("series of " +:+ m);
     getProjectDailyCost p i := Fulfilled ("cost of project " +:+ p);
     getGroupDailyCost g i :=
       Rejected 1 (Some {| message := "cost timed out" |}) |}.

(** The group cost call is rejected without a reason
    ([Promise.reject()]). *)
Definition silentClient
    : CostInsightsApi string string string string string :=
  {| getGroupProjects g := Fulfilled ["p1"; "p2"];
     getAlerts g := Fulfilled ["idle-cluster"];
     getDailyMetricData m i := Fulfilled ("series of " +:+ m);
     getProjectDailyCost p i := Fulfilled ("cost of project " +:+ p);
     getGroupDailyCost g i := Rejected 1 None |}.

Definition sampleFilters (g p m : Maybe string) : PageFilters string :=
  {| group := g; project := p; duration := "P30D"; metric := m |}.

Definition sampleProps
    (api : CostInsightsApi string string string string string)
    (filters : PageFilters string)
    : Props string string string string string string string :=
  {| client := api; pageFilters := filters;
     lastCompleteBillingDate := "2020-10-01";
     loadingActions := ["user-groups"; "billing-date"; ACTION_INITIAL;
                        ACTION_PAGE];
     loadingGroups := false; loadingBillingDate := false |}.

(** The first render: nothing fetched, every action loading. *)
Definition firstWorld : World string string string string string :=
  {| page := initialState;
     loading := list_to_map ((λ a, (a, true)) <$>
                  ["user-groups"; "billing-date"; ACTION_INITIAL;
                   ACTION_PAGE]);
     requests := [] |}.

(** A world left by a failed fetch that followed a successful one. *)
Definition staleWorld : World string string string string string :=
  {| page := {| projects := Some ["p0"]; dailyCost := Some "old cost";
                metricData := None; alerts := Some [];
                error := Some {| message := "previous failure" |} |};
     loading := ∅;
     requests := [] |}.

(** Hook results and a cost encoding to lay the sample page out with: a
    cost is its own list of daily aggregates' characters. *)
Definition sampleChrome (active : bool) : Chrome string string :=
  {| groups := ["team-a"; "team-b"]; currency := "USD";
     currencies := ["USD"; "engineers"]; currenciesActive := active |}.

Definition sampleAggregation (cost : string) : list Ascii.ascii :=
  String.list_ascii_of_string cost.

End CostInsightsPage.

(** * Properties *)

(** ** Truthiness *)

Lemma truthy_Some s v : truthy s = Some v ↔ s = Some v ∧ v ≠ EmptyString.
Proof.
  destruct s as [[|a r]|]; simpl; split;
    first [ intros [Heq Hne]; congruence | intros Heq; split; congruence ].
Qed.

Lemma truthy_None s : truthy s = None ↔ s = None ∨ s = Some EmptyString.
Proof.
  destruct s as [[|a r]|]; simpl; split;
    first [ intros [Heq|Heq]; congruence | intros Heq; auto; congruence ].
Qed.

(** ** The identity lookup *)

Module IdentityLookup.
Import CatalogIdentityClient.

(** Distinct annotation keys are assigned to distinct filter fields. *)
#[local] Instance annotationField_inj : Inj (=) (=) annotationField.
Proof. unfold annotationField. apply _. Qed.

(** No annotation field is the [kind] field. *)
Lemma annotationField_not_kind key : annotationField key ≠ "kind".
Proof. unfold annotationField. cbv. discriminate. Qed.

(** The loop keeps [kind], whatever the entries are. *)
Lemma foldl_assign_kind entries (filter : gmap string string) :
  filter !! "kind" = Some "user" →
  foldl assignAnnotation filter entries !! "kind" = Some "user".
Proof.
  revert filter. induction entries as [|[key value] entries IH];
    intros filter Hkind; simpl; [done|].
  apply IH. unfold assignAnnotation; simpl.
  rewrite lookup_insert_ne; [done|]. apply annotationField_not_kind.
Qed.

(** The loop over entries with distinct keys adds the renamed entries. *)
Lemma foldl_assign_kmap entries (filter : gmap string string) :
  NoDup entries.*1 →
  foldl assignAnnotation filter entries
  = kmap annotationField (list_to_map entries : gmap string string) ∪ filter.
Proof.
  revert filter. induction entries as [|[key value] entries IH];
    intros filter Hnd; simpl.
  - by rewrite kmap_empty, (left_id_L ∅ (∪)).
  - apply NoDup_cons in Hnd as [Hfresh Hnd].
    rewrite IH by done. unfold assignAnnotation; simpl.
    rewrite (kmap_insert annotationField), <-insert_union_l.
    rewrite <-insert_union_r; [done|].
    rewrite (lookup_kmap annotationField).
    by apply not_elem_of_list_to_map.
Qed.

(** The filter as one expression: the renamed annotations over [kind]. *)
Lemma buildFilter_kmap query :
  buildFilter query
  = kmap annotationField (annotations query) ∪ {["kind" := "user"]}.
Proof.
  unfold buildFilter, filterOfEntries.
  rewrite foldl_assign_kmap by apply NoDup_fst_map_to_list.
  by rewrite list_to_map_to_list.
Qed.

(** The order in which [Object.entries] lists the annotations is
    irrelevant. *)
Lemma filterOfEntries_any_order query entries :
  entries ≡ₚ map_to_list (annotations query) →
  filterOfEntries entries = buildFilter query.
Proof.
  intros Hperm. rewrite buildFilter_kmap. unfold filterOfEntries.
  rewrite foldl_assign_kmap.
  - f_equal. f_equal. rewrite <-(list_to_map_to_list (annotations query)).
    apply list_to_map_proper; [|done].
    rewrite Hperm. apply NoDup_fst_map_to_list.
  - rewrite Hperm. apply NoDup_fst_map_to_list.
Qed.

Lemma buildFilter_lookup_kind query : buildFilter query !! "kind" = Some "user".
Proof.
  unfold buildFilter, filterOfEntries. apply foldl_assign_kind.
  apply lookup_singleton_eq.
Qed.

Lemma buildFilter_lookup_annotation query key :
  buildFilter query !! annotationField key = annotations query !! key.
Proof.
  rewrite buildFilter_kmap, lookup_union, (lookup_kmap annotationField).
  rewrite lookup_singleton_ne by (symmetry; apply annotationField_not_kind).
  by destruct (annotations query !! key).
Qed.

Lemma buildFilter_lookup_Some query field value :
  buildFilter query !! field = Some value →
  (field = "kind" ∧ value = "user")
  ∨ ∃ key, field = annotationField key ∧ annotations query !! key = Some value.
Proof.
  rewrite buildFilter_kmap. intros [Hann|[_ Hkind]]%lookup_union_Some_raw.
  - right. by apply (lookup_kmap_Some annotationField) in Hann.
  - left. by apply lookup_singleton_Some in Hkind as [<- <-].
Qed.

Lemma size_kmap_annotationField (m : gmap string string) :
  size (kmap annotationField m : gmap string string) = size m.
Proof.
  rewrite <-!length_map_to_list, (map_to_list_kmap annotationField).
  apply length_fmap.
Qed.

Lemma buildFilter_size query :
  size (buildFilter query) = S (size (annotations query)).
Proof.
  rewrite buildFilter_kmap, map_size_disj_union.
  - rewrite size_kmap_annotationField, map_size_singleton. lia.
  - apply map_disjoint_singleton_r. apply (lookup_kmap_None annotationField).
    intros key Hkey. by destruct (annotationField_not_kind key).
Qed.

Section Lookup.
Context {UserEntity CatalogFailure : Type}.
Implicit Types (catalogApi : CatalogApi UserEntity CatalogFailure).
Implicit Types (users : list UserEntity).



Lemma checkUsers_many users :
  2 ≤ length users →
  checkUsers (CatalogFailure := CatalogFailure) users
  = Throw (ConflictError "User lookup resulted in multiple matches").
Proof.
  intros Hlen. unfold checkUsers.
  destruct (Nat.eqb_spec (length users) 1) as [Heq|_]; [lia|]. simpl.
  destruct (Nat.ltb_spec 1 (length users)) as [_|Hle]; [done|lia].
Qed.

(** A normal return is always an entity, never [undefined]. *)
Lemma checkUsers_Normal users (result : option UserEntity) :
  checkUsers (CatalogFailure := CatalogFailure) users = Normal result →
  users = [] ++ option_list result ∧ is_Some result.
Proof.
  destruct users as [|user [|user' users]]; [done| |].
  - intros [= <-]. eauto.
  - rewrite checkUsers_many by (simpl; lia). done.
Qed.

(** A rejection of the catalog call is passed on as it is. *)
Lemma findUser_rethrows catalogApi query (e : CatalogFailure) :
  getEntities catalogApi (buildFilter query) = Throw e →
  findUser catalogApi query = Throw (Rethrown e).
Proof. unfold findUser. by intros ->. Qed.

(** Every abrupt completion of [findUser] is one of its two errors or the
    catalog's own rejection. *)
Lemma findUser_Throw catalogApi query thrown :
  findUser catalogApi query = Throw thrown →
  thrown = NotFoundError "User not found"
  ∨ thrown = ConflictError "User lookup resulted in multiple matches"
  ∨ ∃ e, thrown = Rethrown e
         ∧ getEntities catalogApi (buildFilter query) = Throw e.
Proof.
  unfold findUser.
  destruct (getEntities catalogApi (buildFilter query)) as [users|e].
  - unfold checkUsers. destruct (negb _); [|done].
    destruct (_ <? _); intros [= <-]; auto.
  - intros [= <-]. eauto.
Qed.

(** C1, as amended: when the catalog answers the query of [findUser] with
    a list of entities, the lookup throws the not-found error if the list is
    empty, throws the conflict error if it has two or more entities, and
    returns the entity itself if it has exactly one; when the catalog call
    is rejected the lookup is rejected with the same error; the lookup
    throws nothing but its two errors and such a rejection of the
    catalog. *)
Theorem findUser_cardinality_or_rethrow catalogApi query :
  (∀ users, getEntities catalogApi (buildFilter query) = Normal users →
     (length users = 0 →
        findUser catalogApi query = Throw (NotFoundError "User not found"))
     ∧ (2 ≤ length users →
        findUser catalogApi query
        = Throw (ConflictError "User lookup resulted in multiple matches"))
     ∧ (∀ user, users = [user] →
        findUser catalogApi query = Normal (Some user)))
  ∧ (∀ e, getEntities catalogApi (buildFilter query) = Throw e →
       findUser catalogApi query = Throw (Rethrown e))
  ∧ (∀ thrown, findUser catalogApi query = Throw thrown →
       thrown = NotFoundError "User not found"
       ∨ thrown = ConflictError "User lookup resulted in multiple matches"
       ∨ ∃ e, thrown = Rethrown e
              ∧ getEntities catalogApi (buildFilter query) = Throw e).
Proof.
  split; [|split; [apply findUser_rethrows|apply findUser_Throw]].
  intros users Hanswer. repeat split.
  - intros ->%nil_length_inv. unfold findUser. by rewrite Hanswer.
  - intros Hmany. unfold findUser. rewrite Hanswer.
    by apply checkUsers_many.
  - intros user ->. unfold findUser. by rewrite Hanswer.
Qed.

(** C7: [findUser] answers from what [getEntities] returns for one filter,
    and that filter holds [kind] = "user", holds for each annotation key
    the field [metadata.annotations.<key>] with the query's value, and
    holds nothing else: one entry per annotation key besides [kind]. *)
Theorem findUser_filter catalogApi query :
  findUser catalogApi query
  = match getEntities catalogApi (buildFilter query) with
    | Throw e => Throw (Rethrown e)
    | Normal users => checkUsers users
    end
  ∧ buildFilter query !! "kind" = Some "user"
  ∧ (∀ key, buildFilter query !! ("metadata.annotations." +:+ key)
            = annotations query !! key)
  ∧ (∀ field value, buildFilter query !! field = Some value →
       (field = "kind" ∧ value = "user")
       ∨ ∃ key, field = "metadata.annotations." +:+ key
                ∧ annotations query !! key = Some value)
  ∧ size (buildFilter query) = S (size (annotations query)).
Proof.
  split; [done|]. split; [apply buildFilter_lookup_kind|].
  split; [apply buildFilter_lookup_annotation|].
  split; [apply buildFilter_lookup_Some|apply buildFilter_size].
Qed.
End Lookup.

(** C9: the filter always keeps [kind] = "user": no annotation key is
    written to the field [kind], an annotation that is itself named "kind"
    lands in [metadata.annotations.kind], and the entry survives every
    iteration of the loop, for any sequence of entries. *)
Theorem filter_keeps_kind query :
  buildFilter query !! "kind" = Some "user"
  ∧ (∀ key, annotationField key ≠ "kind")
  ∧ buildFilter query !! "metadata.annotations.kind"
    = annotations query !! "kind"
  ∧ (∀ entries, filterOfEntries entries !! "kind" = Some "user").
Proof.
  split; [apply buildFilter_lookup_kind|].
  split; [apply annotationField_not_kind|].
  split; [apply (buildFilter_lookup_annotation query "kind")|].
  intros entries. apply foldl_assign_kind, lookup_singleton_eq.
Qed.

Example findUser_alice :
  findUser sampleCatalog (byEmail "alice@example.com")
  = Normal (Some "user:alice").
Proof. vm_compute. reflexivity. Qed.

Example findUser_team :
  findUser sampleCatalog (byEmail "team@example.com")
  = Throw (ConflictError "User lookup resulted in multiple matches").
Proof. vm_compute. reflexivity. Qed.

Example findUser_nobody :
  findUser sampleCatalog (byEmail "carol@example.com")
  = Throw (NotFoundError "User not found").
Proof. vm_compute. reflexivity. Qed.

Example findUser_no_annotation :
  findUser sampleCatalog {| annotations := ∅ |} = Throw (Rethrown ()).
Proof. vm_compute. reflexivity. Qed.

(** C1 as stated fails: when the catalog call is rejected, the lookup
    throws an error that is neither the not-found nor the conflict
    error. *)
Lemma findUser_throws_catalog_error :
  ∃ thrown,
    findUser sampleCatalog {| annotations := ∅ |} = Throw thrown
    ∧ (∀ message, thrown ≠ NotFoundError message)
    ∧ (∀ message, thrown ≠ ConflictError message).
Proof.
  exists (Rethrown ()). split; [vm_compute; reflexivity|].
  split; intros message; discriminate.
Qed.

End IdentityLookup.

(** ** The page loader *)

Module InsightsLoader.
Import CostInsightsPage.

(** *** [Promise.all] *)

Lemma both_Fulfilled {A B : Type} (p : Promise A) (q : Promise B) a b :
  both p q = Fulfilled (a, b) ↔ p = Fulfilled a ∧ q = Fulfilled b.
Proof.
  destruct p as [a'|t1 e1], q as [b'|t2 e2]; simpl;
    try destruct (t2 <? t1); split;
    first [ intros [Hp Hq]; congruence | intros Heq; split; congruence ].
Qed.

(** A rejected [both] carries one of the two rejections, the earliest. *)
Lemma both_Rejected {A B : Type} (p : Promise A) (q : Promise B) t e :
  both p q = Rejected t e →
  (p = Rejected t e ∨ q = Rejected t e)
  ∧ (∀ t' e', p = Rejected t' e' → t ≤ t')
  ∧ (∀ t' e', q = Rejected t' e' → t ≤ t').
Proof.
  destruct p as [a'|t1 e1], q as [b'|t2 e2]; simpl; [done|..].
  - intros [= <- <-]. split; [auto|]. split; [done|]. intros ?? [= <- _]. lia.
  - intros [= <- <-]. split; [auto|]. split; [|done]. intros ?? [= <- _]. lia.
  - destruct (Nat.ltb_spec t2 t1); intros [= <- <-]; (split; [auto|]);
      split; intros ?? [= <- _]; lia.
Qed.

Lemma both_rejects_l {A B : Type} (p : Promise A) (q : Promise B) t e :
  p = Rejected t e → ∃ t' e', both p q = Rejected t' e'.
Proof.
  intros ->. destruct q as [b|t2 e2]; simpl; [eauto|].
  destruct (t2 <? t); eauto.
Qed.

Lemma both_rejects_r {A B : Type} (p : Promise A) (q : Promise B) t e :
  q = Rejected t e → ∃ t' e', both p q = Rejected t' e'.
Proof.
  intros ->. destruct p as [a|t1 e1]; simpl; [eauto|].
  destruct (t <? t1); eauto.
Qed.

Section All.
Context {A B C D : Type}.
Implicit Types (pa : Promise A) (pb : Promise B) (pc : Promise C)
  (pd : Promise D).

Lemma promiseAll_Fulfilled pa pb pc pd a b c d :
  promiseAll pa pb pc pd = Fulfilled (a, b, c, d)
  ↔ pa = Fulfilled a ∧ pb = Fulfilled b ∧ pc = Fulfilled c
    ∧ pd = Fulfilled d.
Proof.
  unfold promiseAll. rewrite !both_Fulfilled. tauto.
Qed.

#[local] Ltac compare_ticks :=
  repeat match goal with
         | |- context [?t <? ?u] => destruct (Nat.ltb_spec t u); simpl
         end.

(** Fail-fast: the rejection of [Promise.all] is a rejection of one of its
    elements, and no element was rejected before it. *)
Lemma promiseAll_Rejected pa pb pc pd t e :
  promiseAll pa pb pc pd = Rejected t e →
  (pa = Rejected t e ∨ pb = Rejected t e ∨ pc = Rejected t e
   ∨ pd = Rejected t e)
  ∧ (∀ t' e', pa = Rejected t' e' ∨ pb = Rejected t' e'
              ∨ pc = Rejected t' e' ∨ pd = Rejected t' e' → t ≤ t').
Proof.
  destruct pa, pb, pc, pd; unfold promiseAll; simpl; compare_ticks;
    intros Heq; inversion Heq; subst; clear Heq;
    (split; [tauto|]);
    intros t' e' [Hr|[Hr|[Hr|Hr]]]; inversion Hr; subst; lia.
Qed.

(** [Promise.all] is rejected as soon as one element is. *)
Lemma promiseAll_rejects pa pb pc pd :
  (∃ t e, pa = Rejected t e) ∨ (∃ t e, pb = Rejected t e)
  ∨ (∃ t e, pc = Rejected t e) ∨ (∃ t e, pd = Rejected t e) →
  ∃ t e, promiseAll pa pb pc pd = Rejected t e.
Proof.
  intros Hany.
  destruct pa, pb, pc, pd; unfold promiseAll; simpl; compare_ticks; eauto.
  destruct Hany as [(?&?&[=])|[(?&?&[=])|[(?&?&[=])|(?&?&[=])]]].
Qed.

End All.

(** *** The loading flags *)

Lemma flag_merge_singleton action isLoading (state : gmap string bool) :
  flag (mergeLoading {[action := isLoading]} state) action = isLoading.
Proof.
  unfold flag, mergeLoading.
  by rewrite (lookup_union_Some_l _ _ _ isLoading)
    by apply lookup_singleton_eq.
Qed.

Lemma lookup_merge_singleton_ne action action' isLoading
    (state : gmap string bool) :
  action ≠ action' →
  mergeLoading {[action := isLoading]} state !! action' = state !! action'.
Proof.
  intros Hne. unfold mergeLoading.
  by rewrite lookup_union_r by (by apply lookup_singleton_ne).
Qed.

Lemma lookup_settled actions action :
  action ∈ actions → settled actions !! action = Some false.
Proof.
  intros Hin. unfold settled.
  induction actions as [|a actions IH]; [by apply elem_of_nil in Hin|].
  simpl. destruct (decide (a = action)) as [->|Hne].
  - apply lookup_insert_eq.
  - rewrite lookup_insert_ne by done. apply IH.
    apply elem_of_cons in Hin as [->|Hin]; done.
Qed.

(** A dispatch of "not loading" leaves cleared flags cleared. *)
Lemma lookup_merge_cleared action action' (state : gmap string bool) :
  state !! action' = Some false →
  mergeLoading {[action := false]} state !! action' = Some false.
Proof.
  intros Hclear. destruct (decide (action = action')) as [->|Hne].
  - unfold mergeLoading. apply lookup_union_Some_l, lookup_singleton_eq.
  - by rewrite lookup_merge_singleton_ne.
Qed.

Lemma lookup_merge_settled actions action (state : gmap string bool) :
  action ∈ actions →
  mergeLoading (settled actions) state !! action = Some false.
Proof.
  intros Hin. unfold mergeLoading.
  apply lookup_union_Some_l. by apply lookup_settled.
Qed.

Section Run.
Context {Duration BillingDate Intervals Project Alert Cost MetricData : Type}.
Variable intervalsOf : Duration → BillingDate → Intervals.

Abbreviation Props' :=
  (Props Duration BillingDate Intervals Project Alert Cost MetricData).
Abbreviation World' := (World Intervals Project Alert Cost MetricData).
Implicit Types (props : Props') (w : World').

#[local] Arguments mergeLoading : simpl never.
#[local] Arguments settled : simpl never.

#[local] Ltac run :=
  cbv [getInsights tryCatchFinally bind ret await call modifyPage dispatch
       setError setProjects setAlerts setMetricData setDailyCost
       dispatchLoadingInitial dispatchLoadingInsights dispatchLoadingNone];
  cbn [page loading requests projects dailyCost metricData alerts error].

(** The run when no group is selected: the error is cleared, every loading
    action is settled, nothing is requested. *)
Lemma getInsights_no_group props w :
  truthy (group (pageFilters props)) = None →
  getInsights intervalsOf props w
  = (Normal (),
     {| page := {| projects := projects (page w);
                   dailyCost := dailyCost (page w);
                   metricData := metricData (page w);
                   alerts := alerts (page w);
                   error := None |};
        loading := mergeLoading {[ACTION_PAGE := false]}
                     (mergeLoading {[ACTION_INITIAL := false]}
                        (mergeLoading (settled (loadingActions props))
                           (loading w)));
        requests := requests w |}).
Proof.
  intros Hgroup. run. rewrite Hgroup. reflexivity.
Qed.

(** The run when group [g] is selected: the array is built, which issues
    every call, and the outcome of [Promise.all] decides between the four
    setters and the handler. *)
Lemma getInsights_group props w g :
  truthy (group (pageFilters props)) = Some g →
  getInsights intervalsOf props w
  = let api := client props in
    let filters := pageFilters props in
    let i := intervalsOf (duration filters) (lastCompleteBillingDate props) in
    let log := requests w ++ arrayCalls filters g i in
    match promiseAll (getGroupProjects api g) (getAlerts api g)
            (metricDataPromise api filters i)
            (dailyCostPromise api filters g i) with
    | Fulfilled (a, b, c, d) =>
        (Normal (),
         {| page := {| projects := Some a; dailyCost := Some d;
                       metricData := c; alerts := Some b; error := None |};
            loading := mergeLoading {[ACTION_PAGE := false]}
                         (mergeLoading {[ACTION_INITIAL := false]}
                            (mergeLoading {[ACTION_PAGE := true]}
                               (loading w)));
            requests := log |})
    | Rejected _ e =>
        (Normal (),
         {| page := {| projects := projects (page w);
                       dailyCost := dailyCost (page w);
                       metricData := metricData (page w);
                       alerts := alerts (page w);
                       error := e |};
            loading := mergeLoading {[ACTION_PAGE := false]}
                         (mergeLoading {[ACTION_INITIAL := false]}
                            (mergeLoading (settled (loadingActions props))
                               (mergeLoading {[ACTION_PAGE := true]}
                                  (loading w))));
            requests := log |})
    end.
Proof.
  intros Hgroup. run. rewrite Hgroup.
  unfold metricDataPromise, dailyCostPromise, arrayCalls.
  destruct (truthy (metric (pageFilters props))) as [m|],
    (truthy (project (pageFilters props))) as [p|]; cbn -[promiseAll].
  all: rewrite <-?app_assoc; cbn [app].
  all: match goal with
       | |- context [promiseAll ?pa ?pb ?pc ?pd] =>
           destruct (promiseAll pa pb pc pd) as [[[[a b] c] d]|t e]
       end; reflexivity.
Qed.

Lemma issued_no_group props w :
  truthy (group (pageFilters props)) = None → issued intervalsOf props w = [].
Proof.
  intros Hgroup. unfold issued, after.
  rewrite getInsights_no_group by done. simpl. apply drop_all.
Qed.

Lemma issued_group props w g :
  truthy (group (pageFilters props)) = Some g →
  issued intervalsOf props w
  = arrayCalls (pageFilters props) g
      (intervalsOf (duration (pageFilters props))
         (lastCompleteBillingDate props)).
Proof.
  intros Hgroup. unfold issued, after.
  rewrite (getInsights_group _ _ g) by done. cbv zeta.
  destruct (promiseAll _ _ _ _) as [[[[a b] c] d]|t e]; simpl;
    apply drop_app_length.
Qed.

(** The log only grows, by the calls of the run. *)
Lemma requests_after props w :
  requests (after intervalsOf props w)
  = requests w ++ issued intervalsOf props w.
Proof.
  destruct (truthy (group (pageFilters props))) as [g|] eqn:Hgroup.
  - rewrite (issued_group _ _ g) by done. unfold after.
    rewrite (getInsights_group _ _ g) by done. cbv zeta.
    by destruct (promiseAll _ _ _ _) as [[[[a b] c] d]|t e].
  - rewrite issued_no_group by done. unfold after.
    rewrite getInsights_no_group by done. simpl. by rewrite app_nil_r.
Qed.

Lemma elem_of_arrayCalls (filters : PageFilters Duration) g i
    (r : Request Intervals) :
  r ∈ arrayCalls filters g i
  ↔ r = GetGroupProjects g ∨ r = GetAlerts g
    ∨ (∃ m, truthy (metric filters) = Some m ∧ r = GetDailyMetricData m i)
    ∨ (∃ p, truthy (project filters) = Some p
            ∧ r = GetProjectDailyCost p i)
    ∨ (truthy (project filters) = None ∧ r = GetGroupDailyCost g i).
Proof.
  unfold arrayCalls.
  destruct (truthy (metric filters)) as [m|],
    (truthy (project filters)) as [p|];
    rewrite !elem_of_app, ?elem_of_cons, ?elem_of_nil; naive_solver.
Qed.

(** A call of the array is rejected exactly when [Promise.all] is. *)
Lemma arrayCalls_rejected (api : CostInsightsApi Intervals Project Alert
                                   Cost MetricData)
    (filters : PageFilters Duration) g i :
  (∃ r, r ∈ arrayCalls filters g i ∧ rejects api r = true)
  ↔ ∃ t e, promiseAll (getGroupProjects api g) (getAlerts api g)
             (metricDataPromise api filters i)
             (dailyCostPromise api filters g i) = Rejected t e.
Proof.
  split.
  - intros (r & Hin & Hrej). apply promiseAll_rejects.
    unfold rejects in Hrej. apply elem_of_arrayCalls in Hin.
    unfold metricDataPromise, dailyCostPromise.
    destruct Hin as [->|[->|[(m & -> & ->)|[(p & -> & ->)|[-> ->]]]]];
      simpl in Hrej.
    + destruct (getGroupProjects api g); [done|eauto].
    + destruct (getAlerts api g); [done|eauto 6].
    + destruct (getDailyMetricData api m i); [done|]. simpl. eauto 8.
    + destruct (getProjectDailyCost api p i); [done|eauto 8].
    + destruct (getGroupDailyCost api g i); [done|eauto 8].
  - intros (t & e & [Hwhich _]%promiseAll_Rejected).
    unfold metricDataPromise, dailyCostPromise in Hwhich.
    setoid_rewrite elem_of_arrayCalls. unfold rejects.
    destruct Hwhich as [H|[H|[H|H]]].
    + exists (GetGroupProjects g). simpl. rewrite H. auto.
    + exists (GetAlerts g). simpl. rewrite H. auto.
    + destruct (truthy (metric filters)) as [m|] eqn:Hm; [|done].
      exists (GetDailyMetricData m i). simpl.
      destruct (getDailyMetricData api m i); [done|]. eauto 8.
    + destruct (truthy (project filters)) as [p|] eqn:Hp.
      * exists (GetProjectDailyCost p i). simpl. rewrite H. eauto 8.
      * exists (GetGroupDailyCost g i). simpl. rewrite H. eauto 8.
Qed.

(** The rejection of [Promise.all] is the rejection of a call of the
    array. *)
Lemma promiseAll_Rejected_call (api : CostInsightsApi Intervals Project
                                        Alert Cost MetricData)
    (filters : PageFilters Duration) g i t e :
  promiseAll (getGroupProjects api g) (getAlerts api g)
    (metricDataPromise api filters i) (dailyCostPromise api filters g i)
  = Rejected t e →
  ∃ r, r ∈ arrayCalls filters g i ∧ answer api r = Rejected t e.
Proof.
  intros [Hwhich _]%promiseAll_Rejected.
  unfold metricDataPromise, dailyCostPromise in Hwhich.
  setoid_rewrite elem_of_arrayCalls.
  destruct Hwhich as [H|[H|[H|H]]].
  - exists (GetGroupProjects g). simpl. rewrite H. auto.
  - exists (GetAlerts g). simpl. rewrite H. auto.
  - destruct (truthy (metric filters)) as [m|] eqn:Hm; [|done].
    exists (GetDailyMetricData m i). simpl.
    destruct (getDailyMetricData api m i); [done|].
    injection H as -> ->. eauto 8.
  - destruct (truthy (project filters)) as [p|] eqn:Hp.
    + exists (GetProjectDailyCost p i). simpl. rewrite H. eauto 8.
    + exists (GetGroupDailyCost g i). simpl. rewrite H. eauto 8.
Qed.

(** The effect starts a run unless both pieces of metadata are still
    loading. *)
Lemma effect_waits props w :
  loadingGroups props = true → loadingBillingDate props = true →
  effect intervalsOf props w = (Normal (), w).
Proof. unfold effect. by intros -> ->. Qed.

Lemma effect_runs props w :
  loadingGroups props = false ∨ loadingBillingDate props = false →
  effect intervalsOf props w = getInsights intervalsOf props w.
Proof.
  unfold effect. intros [->| ->]; [done|].
  by destruct (loadingGroups props).
Qed.

(** Which daily cost function the array calls. *)
Lemma issued_without_project props w g :
  truthy (group (pageFilters props)) = Some g →
  truthy (project (pageFilters props)) = None →
  GetGroupDailyCost g (intervalsOf (duration (pageFilters props))
                         (lastCompleteBillingDate props))
  ∈ issued intervalsOf props w
  ∧ ∀ p j, GetProjectDailyCost p j ∉ issued intervalsOf props w.
Proof.
  intros Hgroup Hproject. rewrite (issued_group _ _ g) by done. split.
  - apply elem_of_arrayCalls. auto 6.
  - intros p j [H|[H|[(m & _ & H)|[(p' & Hp & _)|[_ H]]]]]%elem_of_arrayCalls;
      congruence.
Qed.

Lemma issued_with_project props w g p :
  truthy (group (pageFilters props)) = Some g →
  truthy (project (pageFilters props)) = Some p →
  GetProjectDailyCost p (intervalsOf (duration (pageFilters props))
                           (lastCompleteBillingDate props))
  ∈ issued intervalsOf props w
  ∧ ∀ g' j, GetGroupDailyCost g' j ∉ issued intervalsOf props w.
Proof.
  intros Hgroup Hproject. rewrite (issued_group _ _ g) by done. split.
  - apply elem_of_arrayCalls. eauto 8.
  - intros g' j
      [H|[H|[(m & _ & H)|[(p' & _ & H)|[Hnone _]]]]]%elem_of_arrayCalls;
      congruence.
Qed.

(** *** What the specification says of a run *)

(** C2: with no group selected (the group filter is [null] or empty), the
    run calls no fetch function of the cost API, and the page it leaves
    renders the no-groups view. *)
Theorem no_group_no_fetch props w :
  truthy (group (pageFilters props)) = None →
  issued intervalsOf props w = []
  ∧ requests (after intervalsOf props w) = requests w
  ∧ render (pageFilters props) (after intervalsOf props w) = NoGroups.
Proof.
  intros Hgroup. split; [by apply issued_no_group|]. split.
  - by rewrite requests_after, issued_no_group, app_nil_r.
  - unfold render, after. rewrite getInsights_no_group by done. simpl.
    rewrite Hgroup.
    unfold flag. rewrite lookup_merge_singleton_ne by done.
    fold (flag (mergeLoading {[ACTION_INITIAL := false]}
                  (mergeLoading (settled (loadingActions props))
                     (loading w))) ACTION_INITIAL).
    by rewrite flag_merge_singleton.
Qed.

(** C3: with group [g] selected, a run whose project filter is [null] (or
    empty) calls [getGroupDailyCost] with [g] and never
    [getProjectDailyCost]; a run with project [p] selected calls
    [getProjectDailyCost] with [p] and never [getGroupDailyCost]. *)
Theorem daily_cost_by_project props w g :
  truthy (group (pageFilters props)) = Some g →
  let i := intervalsOf (duration (pageFilters props))
             (lastCompleteBillingDate props) in
  (truthy (project (pageFilters props)) = None →
     GetGroupDailyCost g i ∈ issued intervalsOf props w
     ∧ ∀ p j, GetProjectDailyCost p j ∉ issued intervalsOf props w)
  ∧ (∀ p, truthy (project (pageFilters props)) = Some p →
     GetProjectDailyCost p i ∈ issued intervalsOf props w
     ∧ ∀ g' j, GetGroupDailyCost g' j ∉ issued intervalsOf props w).
Proof.
  intros Hgroup i. subst i. split.
  - intros Hproject. by apply issued_without_project.
  - intros p Hproject. by apply (issued_with_project props w g).
Qed.

(** C4: with a group selected, when no call of the run is rejected the four
    cells hold exactly the values the calls were fulfilled with, whatever
    they held before; when some call is rejected the four cells are
    unchanged. *)
Theorem fetch_all_or_nothing props w g :
  truthy (group (pageFilters props)) = Some g →
  let api := client props in
  let filters := pageFilters props in
  let i := intervalsOf (duration filters) (lastCompleteBillingDate props) in
  let w' := after intervalsOf props w in
  ((∀ r, r ∈ issued intervalsOf props w → rejects api r = false) →
     ∃ a b c d,
       getGroupProjects api g = Fulfilled a
       ∧ getAlerts api g = Fulfilled b
       ∧ metricDataPromise api filters i = Fulfilled c
       ∧ dailyCostPromise api filters g i = Fulfilled d
       ∧ projects (page w') = Some a ∧ alerts (page w') = Some b
       ∧ metricData (page w') = c ∧ dailyCost (page w') = Some d)
  ∧ ((∃ r, r ∈ issued intervalsOf props w ∧ rejects api r = true) →
     projects (page w') = projects (page w)
     ∧ alerts (page w') = alerts (page w)
     ∧ metricData (page w') = metricData (page w)
     ∧ dailyCost (page w') = dailyCost (page w)).
Proof.
  intros Hgroup api filters i w'. subst w'. unfold after.
  rewrite (issued_group _ _ g), (getInsights_group _ _ g) by done.
  cbv zeta. fold api filters i.
  destruct (promiseAll _ _ _ _) as [[[[a b] c] d]|t e] eqn:Hall; simpl.
  - split.
    + intros _. apply promiseAll_Fulfilled in Hall as (Ha & Hb & Hc & Hd).
      exists a, b, c, d. by repeat split.
    + intros Hrej%arrayCalls_rejected. fold api in Hrej.
      destruct Hrej as (t & e & Hrej). congruence.
  - split; [|done].
    intros Hnone.
    destruct (proj2 (arrayCalls_rejected api filters g i))
      as (r & Hin & Hrej); [eauto|].
    rewrite (Hnone r Hin) in Hrej. done.
Qed.

(** C5, as amended: with a group selected, when some call of the run is
    rejected the run still completes normally, the error cell holds the
    reason of a rejected call, which is an error whenever every rejected
    call carries one, the page and initial flags read "not loading", and
    every flag the run changed reads "not loading", among them every
    loading action. *)
Theorem rejection_reason_is_stored props w g :
  truthy (group (pageFilters props)) = Some g →
  (∃ r, r ∈ issued intervalsOf props w ∧ rejects (client props) r = true) →
  let w' := after intervalsOf props w in
  (getInsights intervalsOf props w).1 = Normal ()
  ∧ (∃ r t reason, r ∈ issued intervalsOf props w
                   ∧ answer (client props) r = Rejected t reason
                   ∧ error (page w') = reason)
  ∧ ((∀ r t reason, r ∈ issued intervalsOf props w →
        answer (client props) r = Rejected t reason → is_Some reason) →
     is_Some (error (page w')))
  ∧ flag (loading w') ACTION_PAGE = false
  ∧ flag (loading w') ACTION_INITIAL = false
  ∧ (∀ action, action ∈ loadingActions props →
       loading w' !! action = Some false)
  ∧ (∀ action, loading w' !! action ≠ loading w !! action →
       loading w' !! action = Some false).
Proof.
  intros Hgroup Hrej w'. subst w'. unfold after. revert Hrej.
  rewrite (issued_group _ _ g), (getInsights_group _ _ g) by done.
  cbv zeta. intros Hrej.
  pose proof Hrej as (t & e & Hall)%arrayCalls_rejected.
  rewrite Hall. simpl.
  destruct (promiseAll_Rejected_call _ _ _ _ _ _ Hall) as (r & Hin & Hr).
  split; [done|]. split; [eauto 6|]. split; [eauto|].
  split; [apply flag_merge_singleton|]. split.
  { unfold flag. rewrite lookup_merge_singleton_ne by done.
    fold (flag (mergeLoading {[ACTION_INITIAL := false]}
                  (mergeLoading (settled (loadingActions props))
                     (mergeLoading {[ACTION_PAGE := true]} (loading w))))
            ACTION_INITIAL).
    apply flag_merge_singleton. }
  split.
  { intros action Hin'.
    by do 2 apply lookup_merge_cleared; apply lookup_merge_settled. }
  intros action Hchanged.
  destruct (decide (ACTION_PAGE = action)) as [<-|Hpage].
  { unfold mergeLoading at 1.
    apply lookup_union_Some_l, lookup_singleton_eq. }
  rewrite lookup_merge_singleton_ne in Hchanged |- * by done.
  destruct (decide (ACTION_INITIAL = action)) as [<-|Hinitial].
  { unfold mergeLoading at 1.
    apply lookup_union_Some_l, lookup_singleton_eq. }
  rewrite lookup_merge_singleton_ne in Hchanged |- * by done.
  destruct (decide (action ∈ loadingActions props)) as [Hin'|Hout].
  { by apply lookup_merge_settled. }
  exfalso. apply Hchanged. unfold mergeLoading at 1.
  rewrite lookup_union_r.
  - by apply lookup_merge_singleton_ne.
  - unfold settled. apply not_elem_of_list_to_map.
    rewrite <-list_fmap_compose. simpl. by rewrite list_fmap_id.
Qed.

(** C6, as amended: with group [g] selected the run calls
    [getGroupProjects] and [getAlerts] with [g] and one of the two daily
    cost functions, and calls [getDailyMetricData] exactly when a metric is
    selected; the calls depend on the filters and the billing date only, so
    all of them are made whatever the client answers to any of them. *)
Theorem array_calls_issued props w g :
  truthy (group (pageFilters props)) = Some g →
  let filters := pageFilters props in
  let i := intervalsOf (duration filters) (lastCompleteBillingDate props) in
  GetGroupProjects g ∈ issued intervalsOf props w
  ∧ GetAlerts g ∈ issued intervalsOf props w
  ∧ match truthy (project filters) with
    | Some p => GetProjectDailyCost p i
    | None => GetGroupDailyCost g i
    end ∈ issued intervalsOf props w
  ∧ (∀ m j, GetDailyMetricData m j ∈ issued intervalsOf props w
            ↔ truthy (metric filters) = Some m ∧ j = i)
  ∧ (∀ props' w',
       pageFilters props' = filters →
       lastCompleteBillingDate props' = lastCompleteBillingDate props →
       issued intervalsOf props' w' = issued intervalsOf props w).
Proof.
  intros Hgroup filters i. rewrite (issued_group _ _ g) by done.
  fold filters i. setoid_rewrite elem_of_arrayCalls.
  split; [auto|]. split; [auto|]. split.
  { destruct (truthy (project filters)) as [p|] eqn:Hp; eauto 8. }
  split.
  - intros m j. split.
    + intros [H|[H|[(m' & Hm & H)|[(p & _ & H)|[_ H]]]]]; try congruence.
      injection H as -> ->. done.
    + intros [Hm ->]. eauto 8.
  - intros props' w' Hfilters Hdate.
    rewrite (issued_group props' w' g) by (by rewrite Hfilters).
    by rewrite Hfilters, Hdate.
Qed.

(** C8: selecting "all" stores [null] as the project filter, the same
    filters as selecting [null]; with group [g] selected, a run under the
    filters so stored calls [getGroupDailyCost] with [g] and never
    [getProjectDailyCost]. *)
Theorem all_is_no_project props w g (filters : PageFilters Duration) :
  pageFilters props = setProject (Some "all") filters →
  truthy (group filters) = Some g →
  project (pageFilters props) = None
  ∧ setProject (Some "all") filters = setProject None filters
  ∧ GetGroupDailyCost g (intervalsOf (duration filters)
                           (lastCompleteBillingDate props))
    ∈ issued intervalsOf props w
  ∧ ∀ p j, GetProjectDailyCost p j ∉ issued intervalsOf props w.
Proof.
  intros Hfilters Hgroup.
  assert (truthy (group (pageFilters props)) = Some g) as Hgroup'
    by (by rewrite Hfilters).
  assert (truthy (project (pageFilters props)) = None) as Hproject
    by (by rewrite Hfilters).
  destruct (issued_without_project props w g Hgroup' Hproject)
    as [Hcalled Hnever].
  rewrite Hfilters in Hcalled |- *. simpl in Hcalled |- *.
  by repeat split.
Qed.

(** C10: a run clears the error cell before anything else, so the cell the
    run started with has no effect on the run; after a run none of whose
    calls is rejected (in particular a run with no group selected, which
    makes no call) the error cell is [null]. *)
Theorem error_cleared_first props w :
  (∀ r, r ∈ issued intervalsOf props w → rejects (client props) r = false) →
  error (page (after intervalsOf props w)) = None
  ∧ ∀ stale,
      getInsights intervalsOf props (setError stale w).2
      = getInsights intervalsOf props w.
Proof.
  intros Hnone. unfold after.
  destruct (truthy (group (pageFilters props))) as [g|] eqn:Hgroup.
  - split.
    + rewrite (issued_group _ _ g) in Hnone by done.
      rewrite (getInsights_group _ _ g) by done. cbv zeta.
      destruct (promiseAll _ _ _ _) as [[[[a b] c] d]|t e] eqn:Hall; [done|].
      assert (∃ r, r ∈ arrayCalls (pageFilters props) g
                         (intervalsOf (duration (pageFilters props))
                            (lastCompleteBillingDate props))
                   ∧ rejects (client props) r = true)
        as (r & Hin & Hrej) by (apply arrayCalls_rejected; eauto).
      rewrite (Hnone r Hin) in Hrej. done.
    + intros stale. by rewrite !(getInsights_group _ _ g) by done.
  - split.
    + by rewrite getInsights_no_group by done.
    + intros stale. by rewrite !getInsights_no_group by done.
Qed.

End Run.

(** *** Runs on the sample client *)

#[local] Ltac in_computed_list :=
  apply list_elem_of_In; vm_compute; tauto.

Example run_team_a :
  issued sampleIntervals
    (sampleProps sampleClient (sampleFilters (Some "team-a") None None))
    firstWorld
  = [GetGroupProjects "team-a"; GetAlerts "team-a";
     GetGroupDailyCost "team-a" "R2/P30D/2020-10-01"].
Proof. vm_compute. reflexivity. Qed.

Example run_team_a_project_metric :
  issued sampleIntervals
    (sampleProps sampleClient
       (sampleFilters (Some "team-a") (Some "p1") (Some "dau")))
    firstWorld
  = [GetGroupProjects "team-a"; GetAlerts "team-a";
     GetDailyMetricData "dau" "R2/P30D/2020-10-01";
     GetProjectDailyCost "p1" "R2/P30D/2020-10-01"].
Proof. vm_compute. reflexivity. Qed.

(** Both rejected calls were made; the earlier rejection is the one
    stored. *)
Example run_failing :
  page (after sampleIntervals
          (sampleProps failingClient (sampleFilters (Some "team-a") None None))
          staleWorld)
  = {| projects := Some ["p0"]; dailyCost := Some "old cost";
       metricData := None; alerts := Some [];
       error := Some {| message := "cost timed out" |} |}.
Proof. vm_compute. reflexivity. Qed.

Example render_after_failure :
  render (sampleFilters (Some "team-a") None None)
    (after sampleIntervals
       (sampleProps failingClient (sampleFilters (Some "team-a") None None))
       firstWorld)
  = MaterialAlert "cost timed out".
Proof. vm_compute. reflexivity. Qed.

(** An empty group is no group. *)
Example run_empty_group :
  render (sampleFilters (Some "") None None)
    (after sampleIntervals
       (sampleProps sampleClient (sampleFilters (Some "") None None))
       firstWorld)
  = NoGroups.
Proof. vm_compute. reflexivity. Qed.

Lemma no_group_no_fetch_witness :
  truthy (group (pageFilters
                   (sampleProps failingClient (sampleFilters None None None))))
  = None
  ∧ issued sampleIntervals
      (sampleProps failingClient (sampleFilters None None None)) staleWorld
    = []
  ∧ render (sampleFilters None None None)
      (after sampleIntervals
         (sampleProps failingClient (sampleFilters None None None))
         staleWorld)
    = NoGroups.
Proof.
  split; [reflexivity|].
  destruct (no_group_no_fetch sampleIntervals
              (sampleProps failingClient (sampleFilters None None None))
              staleWorld eq_refl) as (Hissued & _ & Hrender).
  exact (conj Hissued Hrender).
Defined.

Lemma daily_cost_by_project_witness :
  truthy (group (pageFilters
                   (sampleProps sampleClient
                      (sampleFilters (Some "team-a") (Some "p1") None))))
  = Some "team-a"
  ∧ GetProjectDailyCost "p1" "R2/P30D/2020-10-01"
    ∈ issued sampleIntervals
        (sampleProps sampleClient
           (sampleFilters (Some "team-a") (Some "p1") None)) firstWorld
  ∧ ∀ g j, GetGroupDailyCost g j
           ∉ issued sampleIntervals
               (sampleProps sampleClient
                  (sampleFilters (Some "team-a") (Some "p1") None))
               firstWorld.
Proof.
  split; [reflexivity|].
  destruct (daily_cost_by_project sampleIntervals
              (sampleProps sampleClient
                 (sampleFilters (Some "team-a") (Some "p1") None))
              firstWorld "team-a" eq_refl) as [_ Hselected].
  exact (Hselected "p1" eq_refl).
Defined.

Lemma fetch_all_or_nothing_witness :
  truthy (group (pageFilters
                   (sampleProps failingClient
                      (sampleFilters (Some "team-a") None None))))
  = Some "team-a"
  ∧ (∃ r, r ∈ issued sampleIntervals
                (sampleProps failingClient
                   (sampleFilters (Some "team-a") None None)) staleWorld
          ∧ rejects failingClient r = true)
  ∧ projects (page (after sampleIntervals
                      (sampleProps failingClient
                         (sampleFilters (Some "team-a") None None))
                      staleWorld))
    = Some ["p0"].
Proof.
  split; [reflexivity|].
  assert (∃ r, r ∈ issued sampleIntervals
                     (sampleProps failingClient
                        (sampleFilters (Some "team-a") None None)) staleWorld
               ∧ rejects failingClient r = true) as Hrejected.
  { exists (GetAlerts "team-a"). split; [in_computed_list|reflexivity]. }
  split; [exact Hrejected|].
  destruct (fetch_all_or_nothing sampleIntervals
              (sampleProps failingClient
                 (sampleFilters (Some "team-a") None None))
              staleWorld "team-a" eq_refl) as [_ Hkept].
  exact (proj1 (Hkept Hrejected)).
Defined.

(** C5 as stated fails: a call rejected without a reason leaves the error
    cell [null], although the run was rejected. *)
Lemma rejection_without_reason_leaves_error_null :
  truthy (group (pageFilters
                   (sampleProps silentClient
                      (sampleFilters (Some "team-a") None None))))
  = Some "team-a"
  ∧ (∃ r, r ∈ issued sampleIntervals
                (sampleProps silentClient
                   (sampleFilters (Some "team-a") None None)) firstWorld
          ∧ rejects silentClient r = true)
  ∧ error (page (after sampleIntervals
                   (sampleProps silentClient
                      (sampleFilters (Some "team-a") None None))
                   firstWorld))
    = None.
Proof.
  split; [reflexivity|]. split; [|vm_compute; reflexivity].
  exists (GetGroupDailyCost "team-a" "R2/P30D/2020-10-01").
  split; [in_computed_list|reflexivity].
Qed.

Lemma rejection_reason_is_stored_witness :
  truthy (group (pageFilters
                   (sampleProps failingClient
                      (sampleFilters (Some "team-a") None None))))
  = Some "team-a"
  ∧ (∃ r, r ∈ issued sampleIntervals
                (sampleProps failingClient
                   (sampleFilters (Some "team-a") None None)) firstWorld
          ∧ rejects failingClient r = true)
  ∧ flag (loading (after sampleIntervals
                     (sampleProps failingClient
                        (sampleFilters (Some "team-a") None None))
                     firstWorld)) ACTION_PAGE
    = false.
Proof.
  split; [reflexivity|].
  assert (∃ r, r ∈ issued sampleIntervals
                     (sampleProps failingClient
                        (sampleFilters (Some "team-a") None None)) firstWorld
               ∧ rejects failingClient r = true) as Hrejected.
  { exists (GetAlerts "team-a"). split; [in_computed_list|reflexivity]. }
  split; [exact Hrejected|].
  destruct (rejection_reason_is_stored sampleIntervals
              (sampleProps failingClient
                 (sampleFilters (Some "team-a") None None))
              firstWorld "team-a" eq_refl Hrejected)
    as (_ & _ & _ & Hpage & _).
  exact Hpage.
Defined.

(** C6 as stated fails: with a group but no metric selected, no call for
    the metric series is made. *)
Lemma metric_series_not_requested :
  truthy (group (pageFilters
                   (sampleProps sampleClient
                      (sampleFilters (Some "team-a") None None))))
  = Some "team-a"
  ∧ ¬ ∃ m j, GetDailyMetricData m j
             ∈ issued sampleIntervals
                 (sampleProps sampleClient
                    (sampleFilters (Some "team-a") None None)) firstWorld.
Proof.
  split; [reflexivity|]. intros (m & j & Hin).
  rewrite run_team_a in Hin.
  repeat (apply elem_of_cons in Hin as [Hin|Hin]; [discriminate Hin|]).
  by apply elem_of_nil in Hin.
Qed.

Lemma array_calls_issued_witness :
  truthy (group (pageFilters
                   (sampleProps failingClient
                      (sampleFilters (Some "team-a") None (Some "dau")))))
  = Some "team-a"
  ∧ GetDailyMetricData "dau" "R2/P30D/2020-10-01"
    ∈ issued sampleIntervals
        (sampleProps failingClient
           (sampleFilters (Some "team-a") None (Some "dau"))) firstWorld.
Proof.
  split; [reflexivity|].
  destruct (array_calls_issued sampleIntervals
              (sampleProps failingClient
                 (sampleFilters (Some "team-a") None (Some "dau")))
              firstWorld "team-a" eq_refl) as (_ & _ & _ & Hmetric & _).
  exact (proj2 (Hmetric "dau" _) (conj eq_refl eq_refl)).
Defined.

Lemma all_is_no_project_witness :
  pageFilters (sampleProps sampleClient
                 (setProject (Some "all")
                    (sampleFilters (Some "team-a") (Some "p1") None)))
  = setProject (Some "all") (sampleFilters (Some "team-a") (Some "p1") None)
  ∧ truthy (group (sampleFilters (Some "team-a") (Some "p1") None))
    = Some "team-a"
  ∧ GetGroupDailyCost "team-a" "R2/P30D/2020-10-01"
    ∈ issued sampleIntervals
        (sampleProps sampleClient
           (setProject (Some "all")
              (sampleFilters (Some "team-a") (Some "p1") None)))
        firstWorld.
Proof.
  split; [reflexivity|]. split; [reflexivity|].
  destruct (all_is_no_project sampleIntervals
              (sampleProps sampleClient
                 (setProject (Some "all")
                    (sampleFilters (Some "team-a") (Some "p1") None)))
              firstWorld "team-a"
              (sampleFilters (Some "team-a") (Some "p1") None)
              eq_refl eq_refl) as (_ & _ & Hcalled & _).
  exact Hcalled.
Defined.

Lemma error_cleared_first_witness :
  (∀ r, r ∈ issued sampleIntervals
              (sampleProps sampleClient
                 (sampleFilters (Some "team-a") None None)) staleWorld →
        rejects sampleClient r = false)
  ∧ error (page staleWorld) = Some {| message := "previous failure" |}
  ∧ error (page (after sampleIntervals
                   (sampleProps sampleClient
                      (sampleFilters (Some "team-a") None None))
                   staleWorld))
    = None.
Proof.
  assert (∀ r, r ∈ issued sampleIntervals
                     (sampleProps sampleClient
                        (sampleFilters (Some "team-a") None None))
                     staleWorld →
               rejects sampleClient r = false) as Hnone.
  { intros r _. by destruct r. }
  split; [exact Hnone|]. split; [reflexivity|].
  exact (proj1 (error_cleared_first sampleIntervals
                  (sampleProps sampleClient
                     (sampleFilters (Some "team-a") None None))
                  staleWorld Hnone)).
Defined.

End InsightsLoader.

(** * Further properties of the code *)

(** ** Outcomes of the identity lookup *)

Module LookupOutcomes.
Import CatalogIdentityClient IdentityLookup.

#[local] Existing Instance annotationField_inj.

(** X1: adding an annotation to a query adds its field to the filter, or
    replaces the value of that field, and changes nothing else. *)
Theorem buildFilter_insert (anns : gmap string string) key value :
  buildFilter {| annotations := <[key := value]> anns |}
  = <[annotationField key := value]> (buildFilter {| annotations := anns |}).
Proof.
  rewrite !buildFilter_kmap. simpl.
  by rewrite (kmap_insert annotationField), insert_union_l.
Qed.

(** X2: the filter determines the query: two queries that are sent as the
    same filter have the same annotations. *)
Theorem buildFilter_inj query query' :
  buildFilter query = buildFilter query' → query = query'.
Proof.
  intros Heq. destruct query as [anns], query' as [anns']. f_equal.
  apply map_eq. intros key.
  rewrite <-(buildFilter_lookup_annotation {| annotations := anns |}),
    <-(buildFilter_lookup_annotation {| annotations := anns' |}).
  by rewrite Heq.
Qed.

(** X3: for entries with distinct keys, as [Object.entries] lists them, the
    loop builds the same filter in whatever order they are enumerated. *)
Theorem filter_order_irrelevant (entries entries' : list (string * string)) :
  NoDup entries.*1 →
  entries' ≡ₚ entries →
  filterOfEntries entries' = filterOfEntries entries.
Proof.
  intros Hnodup Hperm. unfold filterOfEntries.
  rewrite !foldl_assign_kmap by (by rewrite ?Hperm).
  f_equal. f_equal. apply list_to_map_proper; [by rewrite Hperm|done].
Qed.

Section Outcomes.
Context {UserEntity CatalogFailure : Type}.
Implicit Types (catalogApi : CatalogApi UserEntity CatalogFailure).

(** X4: a query without annotations sends the filter that holds [kind]
    alone, so the lookup is decided by how many users the catalog has. *)
Theorem findUser_no_annotations catalogApi :
  buildFilter {| annotations := ∅ |} = {["kind" := "user"]}
  ∧ findUser catalogApi {| annotations := ∅ |}
    = match getEntities catalogApi {["kind" := "user"]} with
      | Throw e => Throw (Rethrown e)
      | Normal users => checkUsers users
      end.
Proof.
  assert (buildFilter {| annotations := ∅ |}
          = ({["kind" := "user"]} : gmap string string)) as Hfilter.
  { unfold buildFilter. simpl. by rewrite map_to_list_empty. }
  split; [done|]. unfold findUser. by rewrite Hfilter.
Qed.

(** X5: [findUser] returns only when the catalog answered with exactly one
    entity, and then returns that entity: the result is never
    [undefined]. *)
Theorem findUser_returns_iff catalogApi query (result : option UserEntity) :
  findUser catalogApi query = Normal result
  ↔ ∃ user, result = Some user
            ∧ getEntities catalogApi (buildFilter query) = Normal [user].
Proof.
  unfold findUser.
  destruct (getEntities catalogApi (buildFilter query)) as [users|e].
  - split.
    + intros [Husers [user ->]]%checkUsers_Normal.
      exists user. by rewrite Husers.
    + intros (user & -> & [= ->]). reflexivity.
  - split; [done|]. by intros (user & _ & ?).
Qed.


(** X7: a rejection of the catalog call is the rejection of [findUser],
    unchanged, and [findUser] rejects that way only then. *)
Theorem findUser_rethrows_iff catalogApi query (e : CatalogFailure) :
  findUser catalogApi query = Throw (Rethrown e)
  ↔ getEntities catalogApi (buildFilter query) = Throw e.
Proof.
  split; [|apply findUser_rethrows].
  intros [Hnot|[Hconflict|(e' & [= <-] & Hfail)]]%findUser_Throw; done.
Qed.

End Outcomes.

Lemma filter_order_irrelevant_witness :
  NoDup [("b", "2"); ("a", "1")].*1
  ∧ [("a", "1"); ("b", "2")] ≡ₚ [("b", "2"); ("a", "1")]
  ∧ filterOfEntries [("a", "1"); ("b", "2")]
    = filterOfEntries [("b", "2"); ("a", "1")].
Proof.
  assert (NoDup [("b", "2"); ("a", "1")].*1) as Hnodup.
  { simpl. apply NoDup_cons. split; [|apply NoDup_singleton].
    intros Hin%list_elem_of_singleton. discriminate Hin. }
  split; [exact Hnodup|].
  assert ([("a", "1"); ("b", "2")] ≡ₚ [("b", "2"); ("a", "1")]) as Hswap
    by apply Permutation_swap.
  split; [exact Hswap|].
  exact (filter_order_irrelevant _ _ Hnodup Hswap).
Defined.

Lemma buildFilter_inj_witness :
  buildFilter (byEmail "alice@example.com")
  = buildFilter
      {| annotations := <["example.com/email" := "alice@example.com"]> ∅ |}
  ∧ byEmail "alice@example.com"
    = {| annotations := <["example.com/email" := "alice@example.com"]> ∅ |}.
Proof.
  assert (buildFilter (byEmail "alice@example.com")
          = buildFilter
              {| annotations :=
                   <["example.com/email" := "alice@example.com"]> ∅ |})
    as Hsame by (vm_compute; reflexivity).
  split; [exact Hsame|].
  exact (buildFilter_inj _ _ Hsame).
Defined.

End LookupOutcomes.

(** ** Outcomes of a run of the loader *)

Module RunOutcomes.
Import CostInsightsPage InsightsLoader.

Section Outcomes.
Context {Duration BillingDate Intervals Project Alert Cost MetricData : Type}.
Variable intervalsOf : Duration → BillingDate → Intervals.

Abbreviation Props' :=
  (Props Duration BillingDate Intervals Project Alert Cost MetricData).
Abbreviation World' := (World Intervals Project Alert Cost MetricData).
Abbreviation Api' :=
  (CostInsightsApi Intervals Project Alert Cost MetricData).
Implicit Types (props : Props') (w : World') (api : Api').
Implicit Types (filters : PageFilters Duration).

#[local] Arguments mergeLoading : simpl never.
#[local] Arguments settled : simpl never.

(** Every run ends with the two dispatches of the [finally] block. *)
Lemma loading_after props w :
  ∃ state, loading (after intervalsOf props w)
           = mergeLoading {[ACTION_PAGE := false]}
               (mergeLoading {[ACTION_INITIAL := false]} state).
Proof.
  unfold after.
  destruct (truthy (group (pageFilters props))) as [g|] eqn:Hgroup.
  - rewrite (getInsights_group _ _ _ g) by done. cbv zeta.
    destruct (promiseAll _ _ _ _) as [[[[a b] c] d]|t e]; simpl; eauto.
  - rewrite getInsights_no_group by done. simpl. eauto.
Qed.

Lemma flags_after props w :
  flag (loading (after intervalsOf props w)) ACTION_PAGE = false
  ∧ flag (loading (after intervalsOf props w)) ACTION_INITIAL = false.
Proof.
  destruct (loading_after props w) as [state ->]. split.
  - apply flag_merge_singleton.
  - unfold flag. rewrite lookup_merge_singleton_ne by done.
    apply (flag_merge_singleton ACTION_INITIAL).
Qed.


(** X8: a run never throws: whatever the filters and however the client
    answers, [getInsights] completes normally, a rejection being left in
    the error cell. *)
Theorem getInsights_never_throws props w :
  (getInsights intervalsOf props w).1 = Normal ().
Proof.
  destruct (truthy (group (pageFilters props))) as [g|] eqn:Hgroup.
  - rewrite (getInsights_group _ _ _ g) by done. cbv zeta.
    by destruct (promiseAll _ _ _ _) as [[[[a b] c] d]|t e].
  - by rewrite getInsights_no_group by done.
Qed.

(** X9: after every run, whatever its outcome and whatever the loading
    flags were, the page and initial flags read "not loading", so the page
    no longer renders the progress bar. *)
Theorem run_ends_loading props w :
  flag (loading (after intervalsOf props w)) ACTION_PAGE = false
  ∧ flag (loading (after intervalsOf props w)) ACTION_INITIAL = false
  ∧ render (pageFilters props) (after intervalsOf props w) ≠ Progress.
Proof.
  destruct (flags_after props w) as [Hpage Hinitial].
  split; [done|]. split; [done|].
  unfold render. rewrite Hinitial.
  destruct (error _); [done|]. destruct (truthy _); [|done].
  by repeat case_match.
Qed.

(** X10: a run with a group selected and no rejected call changes no
    loading flag besides the page and initial ones: the other loading
    actions are not settled by it. *)
Theorem success_keeps_other_flags props w g :
  truthy (group (pageFilters props)) = Some g →
  (∀ r, r ∈ issued intervalsOf props w → rejects (client props) r = false) →
  ∀ action, action ≠ ACTION_PAGE → action ≠ ACTION_INITIAL →
    loading (after intervalsOf props w) !! action = loading w !! action.
Proof.
  intros Hgroup Hnone action Hpage Hinitial. unfold after.
  rewrite (issued_group _ _ _ g) in Hnone by done.
  rewrite (getInsights_group _ _ _ g) by done. cbv zeta.
  destruct (promiseAll _ _ _ _) as [[[[a b] c] d]|t e] eqn:Hall; simpl.
  - by rewrite !lookup_merge_singleton_ne by done.
  - assert (∃ r, r ∈ arrayCalls (pageFilters props) g
                       (intervalsOf (duration (pageFilters props))
                          (lastCompleteBillingDate props))
                 ∧ rejects (client props) r = true)
      as (r & Hin & Hrej) by (apply arrayCalls_rejected; eauto).
    rewrite (Hnone r Hin) in Hrej. done.
Qed.

(** X11: a run with no group selected leaves the four fetched cells as
    they were, settles every loading action, and leaves every other flag
    but the page and initial ones as it was. *)
Theorem no_group_keeps_data props w :
  truthy (group (pageFilters props)) = None →
  let w' := after intervalsOf props w in
  projects (page w') = projects (page w)
  ∧ alerts (page w') = alerts (page w)
  ∧ metricData (page w') = metricData (page w)
  ∧ dailyCost (page w') = dailyCost (page w)
  ∧ (∀ action, action ∈ loadingActions props →
       loading w' !! action = Some false)
  ∧ (∀ action, action ∉ loadingActions props →
       action ≠ ACTION_PAGE → action ≠ ACTION_INITIAL →
       loading w' !! action = loading w !! action).
Proof.
  intros Hgroup w'. subst w'. unfold after.
  rewrite getInsights_no_group by done. simpl.
  repeat (split; [done|]). split.
  - intros action Hin.
    by do 2 apply lookup_merge_cleared; apply lookup_merge_settled.
  - intros action Hout Hpage Hinitial.
    rewrite !lookup_merge_singleton_ne by done.
    unfold mergeLoading. apply lookup_union_r.
    unfold settled. apply not_elem_of_list_to_map.
    rewrite <-list_fmap_compose. simpl. by rewrite list_fmap_id.
Qed.


(** X13: a run with group [g] selected makes three calls, or four with a
    metric selected; the calls that take a group take [g], and the calls
    that take intervals take the intervals of the selected duration and the
    last complete billing date. *)
Theorem calls_name_selected_group props w g :
  truthy (group (pageFilters props)) = Some g →
  let i := intervalsOf (duration (pageFilters props))
             (lastCompleteBillingDate props) in
  length (issued intervalsOf props w)
  = match truthy (metric (pageFilters props)) with
    | Some _ => 4
    | None => 3
    end
  ∧ ∀ r, r ∈ issued intervalsOf props w →
      match r with
      | GetGroupProjects g' | GetAlerts g' => g' = g
      | GetGroupDailyCost g' j => g' = g ∧ j = i
      | GetDailyMetricData _ j | GetProjectDailyCost _ j => j = i
      end.
Proof.
  intros Hgroup i. rewrite (issued_group _ _ _ g) by done. fold i. split.
  - unfold arrayCalls.
    by destruct (truthy (metric (pageFilters props))).
  - intros r
      [->|[->|[(m & _ & ->)|[(p & _ & ->)|[_ ->]]]]]%elem_of_arrayCalls;
      done.
Qed.

(** X14: after a run with group [g] selected and no rejected call, the
    page renders the dashboard for [g] with the alerts, daily cost, metric
    data and projects the calls were fulfilled with. *)
Theorem success_renders_dashboard props w g :
  truthy (group (pageFilters props)) = Some g →
  (∀ r, r ∈ issued intervalsOf props w → rejects (client props) r = false) →
  let api := client props in
  let filters := pageFilters props in
  let i := intervalsOf (duration filters) (lastCompleteBillingDate props) in
  ∃ a b c d,
    getGroupProjects api g = Fulfilled a
    ∧ getAlerts api g = Fulfilled b
    ∧ metricDataPromise api filters i = Fulfilled c
    ∧ dailyCostPromise api filters g i = Fulfilled d
    ∧ render filters (after intervalsOf props w)
      = Insights g b d c a (project filters).
Proof.
  intros Hgroup Hnone api filters i. subst api filters.
  pose proof (flags_after props w) as [_ Hinitial].
  unfold render. rewrite Hinitial, Hgroup. clear Hinitial. unfold after.
  rewrite (issued_group _ _ _ g) in Hnone by done. fold i in Hnone.
  rewrite (getInsights_group _ _ _ g) by done. cbv zeta. fold i.
  destruct (promiseAll _ _ _ _) as [[[[a b] c] d]|t e] eqn:Hall; simpl.
  - apply promiseAll_Fulfilled in Hall as (Ha & Hb & Hc & Hd).
    exists a, b, c, d. by repeat split.
  - assert (∃ r, r ∈ arrayCalls (pageFilters props) g i
                 ∧ rejects (client props) r = true)
      as (r & Hin & Hrej) by (apply arrayCalls_rejected; eauto).
    rewrite (Hnone r Hin) in Hrej. done.
Qed.

(** X15: after a run with a group selected and a rejected call, the error
    cell holds the reason of a rejected call.  When that reason is an error
    the page renders the error alert with its message, not the data of an
    earlier fetch; when the call was rejected without a reason the error
    cell is [null] and the page renders what the cells of the earlier
    fetch give. *)
Theorem failure_renders_alert props w g :
  truthy (group (pageFilters props)) = Some g →
  (∃ r, r ∈ issued intervalsOf props w ∧ rejects (client props) r = true) →
  ∃ r t reason,
    r ∈ issued intervalsOf props w
    ∧ answer (client props) r = Rejected t reason
    ∧ error (page (after intervalsOf props w)) = reason
    ∧ render (pageFilters props) (after intervalsOf props w)
      = match reason with
        | Some e => MaterialAlert (message e)
        | None =>
            match dailyCost (page w), alerts (page w) with
            | Some c, Some a =>
                Insights g a c (metricData (page w))
                  (default [] (projects (page w)))
                  (project (pageFilters props))
            | _, _ =>
                MaterialAlert
                  ("Error: Could not fetch cost insights data for team "
                     +:+ g)
            end
        end.
Proof.
  intros Hgroup Hrej.
  pose proof (flags_after props w) as [_ Hinitial].
  unfold render. rewrite Hinitial, Hgroup. clear Hinitial. unfold after.
  rewrite (issued_group _ _ _ g) in Hrej |- * by done.
  apply arrayCalls_rejected in Hrej as (t & reason & Hall).
  destruct (promiseAll_Rejected_call _ _ _ _ _ _ Hall) as (r & Hin & Hr).
  rewrite (getInsights_group _ _ _ g) by done. cbv zeta.
  rewrite Hall. simpl.
  exists r, t, reason. by destruct reason.
Qed.

(** X16: what decides the view: the progress bar is rendered exactly while
    the initial flag is set; the no-groups view exactly when that flag is
    clear, the error cell is [null] and no group is selected; the dashboard
    exactly when the flag is clear, the error cell is [null], a group is
    selected and both the daily cost and the alerts are there. *)
Theorem render_iff filters w :
  (render filters w = Progress ↔ flag (loading w) ACTION_INITIAL = true)
  ∧ (render filters w = NoGroups
     ↔ flag (loading w) ACTION_INITIAL = false
       ∧ error (page w) = None ∧ truthy (group filters) = None)
  ∧ (∀ owner shown cost metrics selectable selected,
       render filters w
       = Insights owner shown cost metrics selectable selected
       ↔ flag (loading w) ACTION_INITIAL = false
         ∧ error (page w) = None
         ∧ truthy (group filters) = Some owner
         ∧ dailyCost (page w) = Some cost
         ∧ alerts (page w) = Some shown
         ∧ metrics = metricData (page w)
         ∧ selectable = default [] (projects (page w))
         ∧ selected = project filters).
Proof.
  unfold render.
  destruct (flag (loading w) ACTION_INITIAL), (error (page w)) as [e|],
    (truthy (group filters)) as [g|], (dailyCost (page w)) as [c|],
    (alerts (page w)) as [a|].
  all: split; [|split; [|intros owner shown cost metrics selectable selected]].
  all: split; try done.
  all: try (intros (? & ? & ?); congruence).
  all: try (intros (? & ? & ? & ? & ? & ?); congruence).
  - intros [= <- <- <- <- <- <-]. by repeat split.
  - intros (_ & _ & [= <-] & [= <-] & [= <-] & -> & -> & ->). done.
Qed.

(** X17: the effect is held back only while both the groups and the
    billing date are loading, and then changes nothing; as soon as either
    has loaded it is a run of [getInsights] and makes that run's calls. *)
Theorem effect_held_back_by_both_only props w :
  (loadingGroups props = true → loadingBillingDate props = true →
     effect intervalsOf props w = (Normal (), w))
  ∧ (loadingGroups props = false ∨ loadingBillingDate props = false →
     effect intervalsOf props w = getInsights intervalsOf props w
     ∧ requests (effect intervalsOf props w).2
       = requests w ++ issued intervalsOf props w).
Proof.
  split; [apply effect_waits|].
  intros Heither. rewrite effect_runs by done. split; [done|].
  apply requests_after.
Qed.

(** X18: [setProject] changes the project filter only, never stores "all",
    stores every other selection as it is, and a later selection replaces
    an earlier one. *)
Theorem setProject_only_project (selected selected' : Maybe string) filters :
  group (setProject selected filters) = group filters
  ∧ duration (setProject selected filters) = duration filters
  ∧ metric (setProject selected filters) = metric filters
  ∧ project (setProject selected filters) ≠ Some "all"
  ∧ (selected ≠ Some "all" → project (setProject selected filters) = selected)
  ∧ setProject selected (setProject selected' filters)
    = setProject selected filters.
Proof.
  unfold setProject. simpl.
  repeat (split; [done|]). split; [|split; [|done]].
  - by case_decide.
  - intros Hne. by case_decide.
Qed.

(** X19: selecting a project other than "all" (and not empty) makes the
    next run with group [g] selected call [getProjectDailyCost] with that
    project and never [getGroupDailyCost]. *)
Theorem selected_project_is_fetched props w g p filters :
  pageFilters props = setProject (Some p) filters →
  p ≠ "all" → p ≠ "" →
  truthy (group filters) = Some g →
  GetProjectDailyCost p (intervalsOf (duration filters)
                           (lastCompleteBillingDate props))
  ∈ issued intervalsOf props w
  ∧ ∀ g' j, GetGroupDailyCost g' j ∉ issued intervalsOf props w.
Proof.
  intros Hfilters Hall Hempty Hgroup.
  assert (truthy (group (pageFilters props)) = Some g) as Hgroup'
    by (by rewrite Hfilters).
  assert (truthy (project (pageFilters props)) = Some p) as Hproject.
  { rewrite Hfilters. simpl. rewrite decide_False by congruence.
    by apply truthy_Some. }
  destruct (issued_with_project intervalsOf props w g p Hgroup' Hproject)
    as [Hcalled Hnever].
  rewrite Hfilters in Hcalled. simpl in Hcalled. done.
Qed.

(** X20: running the loader again with the same props and the same answers
    changes neither the cells nor the loading flags: only the log of calls
    grows. *)
Theorem rerun_changes_nothing props w :
  let w' := after intervalsOf props w in
  page (after intervalsOf props w') = page w'
  ∧ loading (after intervalsOf props w') = loading w'.
Proof.
  intros w'. subst w'. unfold after.
  destruct (truthy (group (pageFilters props))) as [g|] eqn:Hgroup.
  - rewrite (getInsights_group _ props w g) by done. cbv zeta.
    destruct (promiseAll _ _ _ _) as [[[[a b] c] d]|t e] eqn:Hall; simpl.
    all: rewrite (getInsights_group _ props _ g) by done; cbv zeta.
    all: rewrite Hall; simpl; split; [done|].
    all: apply map_eq; intros action; unfold mergeLoading.
    all: rewrite !lookup_union, !lookup_singleton.
    all: repeat case_decide; try done.
    all: by destruct (settled (loadingActions props) !! action) as [[]|],
           (loading w !! action).
  - rewrite (getInsights_no_group _ props w) by done. simpl.
    rewrite getInsights_no_group by done. simpl. split; [done|].
    apply map_eq; intros action; unfold mergeLoading.
    rewrite !lookup_union, !lookup_singleton.
    repeat case_decide; try done.
    all: by destruct (settled (loadingActions props) !! action) as [[]|],
           (loading w !! action).
Qed.

End Outcomes.

#[local] Ltac in_computed_list :=
  apply list_elem_of_In; vm_compute; tauto.

Lemma sampleClient_never_rejects (r : Request string) :
  rejects sampleClient r = false.
Proof. by destruct r. Qed.

Lemma success_keeps_other_flags_witness :
  truthy (group (pageFilters
                   (sampleProps sampleClient
                      (sampleFilters (Some "team-a") None None))))
  = Some "team-a"
  ∧ (∀ r, r ∈ issued sampleIntervals
                (sampleProps sampleClient
                   (sampleFilters (Some "team-a") None None)) firstWorld →
          rejects sampleClient r = false)
  ∧ loading (after sampleIntervals
               (sampleProps sampleClient
                  (sampleFilters (Some "team-a") None None)) firstWorld)
    !! "user-groups"
    = Some true.
Proof.
  split; [reflexivity|].
  split; [intros r _; apply sampleClient_never_rejects|].
  rewrite (success_keeps_other_flags sampleIntervals
             (sampleProps sampleClient
                (sampleFilters (Some "team-a") None None))
             firstWorld "team-a" eq_refl
             (λ r _, sampleClient_never_rejects r) "user-groups");
    [vm_compute; reflexivity|discriminate|discriminate].
Defined.

Lemma no_group_keeps_data_witness :
  truthy (group (pageFilters
                   (sampleProps sampleClient (sampleFilters None None None))))
  = None
  ∧ dailyCost (page (after sampleIntervals
                       (sampleProps sampleClient
                          (sampleFilters None None None)) staleWorld))
    = Some "old cost".
Proof.
  split; [reflexivity|].
  destruct (no_group_keeps_data sampleIntervals
              (sampleProps sampleClient (sampleFilters None None None))
              staleWorld eq_refl) as (_ & _ & _ & Hcost & _).
  exact Hcost.
Defined.


Lemma calls_name_selected_group_witness :
  truthy (group (pageFilters
                   (sampleProps sampleClient
                      (sampleFilters (Some "team-a") None (Some "dau")))))
  = Some "team-a"
  ∧ length (issued sampleIntervals
              (sampleProps sampleClient
                 (sampleFilters (Some "team-a") None (Some "dau")))
              firstWorld)
    = 4.
Proof.
  split; [reflexivity|].
  exact (proj1 (calls_name_selected_group sampleIntervals
                  (sampleProps sampleClient
                     (sampleFilters (Some "team-a") None (Some "dau")))
                  firstWorld "team-a" eq_refl)).
Defined.

Lemma success_renders_dashboard_witness :
  truthy (group (pageFilters
                   (sampleProps sampleClient
                      (sampleFilters (Some "team-a") None None))))
  = Some "team-a"
  ∧ (∀ r, r ∈ issued sampleIntervals
                (sampleProps sampleClient
                   (sampleFilters (Some "team-a") None None)) staleWorld →
          rejects sampleClient r = false)
  ∧ ∃ a b c d,
      render (sampleFilters (Some "team-a") None None)
        (after sampleIntervals
           (sampleProps sampleClient
              (sampleFilters (Some "team-a") None None)) staleWorld)
      = Insights "team-a" b d c a None.
Proof.
  split; [reflexivity|].
  split; [intros r _; apply sampleClient_never_rejects|].
  destruct (success_renders_dashboard sampleIntervals
              (sampleProps sampleClient
                 (sampleFilters (Some "team-a") None None))
              staleWorld "team-a" eq_refl
              (λ r _, sampleClient_never_rejects r))
    as (a & b & c & d & _ & _ & _ & _ & Hrender).
  exists a, b, c, d. exact Hrender.
Defined.

Lemma failure_renders_alert_witness :
  truthy (group (pageFilters
                   (sampleProps silentClient
                      (sampleFilters (Some "team-a") None None))))
  = Some "team-a"
  ∧ (∃ r, r ∈ issued sampleIntervals
                (sampleProps silentClient
                   (sampleFilters (Some "team-a") None None)) staleWorld
          ∧ rejects silentClient r = true)
  ∧ ∃ r t reason,
      answer silentClient r = Rejected t reason
      ∧ error (page (after sampleIntervals
                       (sampleProps silentClient
                          (sampleFilters (Some "team-a") None None))
                       staleWorld))
        = reason.
Proof.
  split; [reflexivity|].
  assert (∃ r, r ∈ issued sampleIntervals
                     (sampleProps silentClient
                        (sampleFilters (Some "team-a") None None)) staleWorld
               ∧ rejects silentClient r = true) as Hrejected.
  { exists (GetGroupDailyCost "team-a" "R2/P30D/2020-10-01").
    split; [in_computed_list|reflexivity]. }
  split; [exact Hrejected|].
  destruct (failure_renders_alert sampleIntervals
              (sampleProps silentClient
                 (sampleFilters (Some "team-a") None None))
              staleWorld "team-a" eq_refl Hrejected)
    as (r & t & reason & _ & Hr & Herror & _).
  exists r, t, reason. exact (conj Hr Herror).
Defined.

(** The stale dashboard behind a rejection without a reason. *)
Example render_after_silent_failure :
  render (sampleFilters (Some "team-a") None None)
    (after sampleIntervals
       (sampleProps silentClient (sampleFilters (Some "team-a") None None))
       staleWorld)
  = Insights "team-a" [] "old cost" None ["p0"] None.
Proof. vm_compute. reflexivity. Qed.

Lemma selected_project_is_fetched_witness :
  pageFilters (sampleProps sampleClient
                 (setProject (Some "p2")
                    (sampleFilters (Some "team-a") None None)))
  = setProject (Some "p2") (sampleFilters (Some "team-a") None None)
  ∧ "p2" ≠ "all" ∧ "p2" ≠ ""
  ∧ truthy (group (sampleFilters (Some "team-a") None None)) = Some "team-a"
  ∧ GetProjectDailyCost "p2" "R2/P30D/2020-10-01"
    ∈ issued sampleIntervals
        (sampleProps sampleClient
           (setProject (Some "p2")
              (sampleFilters (Some "team-a") None None)))
        firstWorld.
Proof.
  assert ("p2" ≠ "all") as Hall by discriminate.
  assert ("p2" ≠ "") as Hempty by discriminate.
  split; [reflexivity|]. split; [exact Hall|]. split; [exact Hempty|].
  split; [reflexivity|].
  exact (proj1 (selected_project_is_fetched sampleIntervals
                  (sampleProps sampleClient
                     (setProject (Some "p2")
                        (sampleFilters (Some "team-a") None None)))
                  firstWorld "team-a" "p2"
                  (sampleFilters (Some "team-a") None None)
                  eq_refl Hall Hempty eq_refl)).
Defined.

End RunOutcomes.

(** ** The components of the rendered page *)

Module PageLayout.
Import CostInsightsPage.

Section Layout.
Context {Duration BillingDate Intervals Project Alert Cost MetricData : Type}.
Context {Group Currency DateAggregation : Type}.
Variable aggregation : Cost → list DateAggregation.

Abbreviation Component' :=
  (Component BillingDate Project Alert Cost MetricData Group Currency).
Implicit Types (chrome : Chrome Group Currency) (date : BillingDate).
Implicit Types (shown : list Alert) (cost : Cost).

Lemma nonEmpty_true {A : Type} (xs : list A) : nonEmpty xs = true ↔ xs ≠ [].
Proof. by destruct xs. Qed.

#[local] Ltac split_layout :=
  unfold components, costOverviewBanner;
  repeat match goal with
         | |- context [nonEmpty ?xs] => destruct (nonEmpty xs) eqn:?
         | |- context [currenciesActive ?c] =>
             destruct (currenciesActive c) eqn:?
         end;
  simpl.

#[local] Ltac which_member :=
  intros;
  repeat match goal with
         | H : _ ∨ _ |- _ => destruct H as [H|H]
         | H : _ ∧ _ |- _ => destruct H
         | H : _ ∈ [] |- _ => by apply elem_of_nil in H
         | H : _ ∈ _ :: _ |- _ =>
             apply elem_of_cons in H as [H|H];
             [first [ discriminate H | injection H as -> | idtac ]|]
         end;
  subst; try done; try congruence; try tauto;
  try (apply list_elem_of_In; simpl; auto 20).

(** X21: the no-groups view and the dashboard each show exactly one
    divider, wherever the alerts put it; the progress bar and the error
    alert show none. *)
Theorem one_divider chrome date
    (view : View Project Alert Cost MetricData) :
  length (filter (λ c, isDivider c = true)
            (components aggregation chrome date view))
  = match view with
    | Progress | MaterialAlert _ => 0
    | NoGroups | Insights _ _ _ _ _ _ => 1
    end.
Proof.
  destruct view as [|text| |owner shown cost metrics selectable selected];
    [done..|].
  split_layout; try done.
  all: by destruct shown.
Qed.

(** X22: in the dashboard the action cards and the alert insights are
    shown together, exactly when there is an alert, both with the fetched
    alerts; the navigation and the header always show their number. *)
Theorem alerts_shown_together chrome date owner shown cost
    (metrics : Maybe MetricData) (selectable : list Project)
    (selected : Maybe string) :
  let tree := components aggregation chrome date
                (Insights owner shown cost metrics selectable selected) in
  (AlertActionCardList shown ∈ tree ↔ shown ≠ [])
  ∧ (AlertInsights shown ∈ tree ↔ shown ≠ [])
  ∧ (∀ others, AlertActionCardList others ∈ tree ∨ AlertInsights others ∈ tree
               → others = shown)
  ∧ CostInsightsNavigation (length shown) ∈ tree
  ∧ (∀ n, CostInsightsNavigation n ∈ tree → n = length shown)
  ∧ (∀ o gs has n, CostInsightsHeader o gs has n ∈ tree →
       o = owner ∧ gs = groups chrome ∧ n = length shown).
Proof.
  intros tree. subst tree. rewrite <-(nonEmpty_true shown).
  split_layout.
  all: repeat split; which_member.
Qed.

(** X23: in the dashboard the cost overview card is shown exactly when the
    daily cost has an aggregate, with the fetched cost and metric data, and
    the header is told [hasCostData] exactly then. *)
Theorem cost_card_iff_cost_data chrome date owner shown cost
    (metrics : Maybe MetricData) (selectable : list Project)
    (selected : Maybe string) :
  let tree := components aggregation chrome date
                (Insights owner shown cost metrics selectable selected) in
  (CostOverviewCard cost metrics ∈ tree ↔ aggregation cost ≠ [])
  ∧ (∀ c m, CostOverviewCard c m ∈ tree → c = cost ∧ m = metrics)
  ∧ (∀ o gs has n, CostInsightsHeader o gs has n ∈ tree →
       (has = true ↔ CostOverviewCard cost metrics ∈ tree)).
Proof.
  intros tree. subst tree. rewrite <-(nonEmpty_true (aggregation cost)).
  split_layout.
  all: repeat split; which_member.
Qed.

(** X24: when the page renders the dashboard, the project selector is
    there with the stored project filter and the fetched projects, or no
    project when none was fetched, and the currency selector is there
    exactly when the currencies feature is active. *)
Theorem selectors_of_dashboard chrome date
    (filters : PageFilters Duration)
    (w : World Intervals Project Alert Cost MetricData) owner shown cost
    metrics selectable selected :
  render filters w = Insights owner shown cost metrics selectable selected →
  let tree := components aggregation chrome date (render filters w) in
  ProjectSelect (project filters) (default [] (projects (page w))) ∈ tree
  ∧ (∀ p ps, ProjectSelect p ps ∈ tree →
       p = project filters ∧ ps = default [] (projects (page w)))
  ∧ (CurrencySelect (currency chrome) (currencies chrome) ∈ tree
     ↔ currenciesActive chrome = true).
Proof.
  intros Hrender tree. subst tree. rewrite Hrender.
  assert (selectable = default [] (projects (page w))
          ∧ selected = project filters) as [-> ->].
  { unfold render in Hrender. repeat case_match; try done.
    by injection Hrender as <- <- <- <- <- <-. }
  split_layout.
  all: repeat split; which_member.
Qed.

End Layout.

(** The page after a successful fetch for team-a, laid out. *)
Example dashboard_of_team_a :
  components sampleAggregation (sampleChrome false) "2020-10-01"
    (render (sampleFilters (Some "team-a") None None)
       (after sampleIntervals
          (sampleProps sampleClient (sampleFilters (Some "team-a") None None))
          firstWorld))
  = [CostInsightsLayout ["team-a"; "team-b"]; CostInsightsNavigation 1;
     CopyUrlToClipboard; CostInsightsSupportButton;
     CostInsightsHeader "team-a" ["team-a"; "team-b"] true 1;
     AlertActionCardList ["idle-cluster"]; Divider;
     CostOverviewTitle "2020-10-01"; ProjectSelect None ["p1"; "p2"];
     CostOverviewCard "cost of group team-a" None; WhyCostsMatter;
     AlertInsights ["idle-cluster"]; ProductInsights].
Proof. vm_compute. reflexivity. Qed.

Lemma selectors_of_dashboard_witness :
  render (sampleFilters (Some "team-a") None None)
    (after sampleIntervals
       (sampleProps sampleClient (sampleFilters (Some "team-a") None None))
       firstWorld)
  = Insights "team-a" ["idle-cluster"] "cost of group team-a" None
      ["p1"; "p2"] None
  ∧ ProjectSelect None ["p1"; "p2"]
    ∈ components sampleAggregation (sampleChrome true) "2020-10-01"
        (render (sampleFilters (Some "team-a") None None)
           (after sampleIntervals
              (sampleProps sampleClient
                 (sampleFilters (Some "team-a") None None))
              firstWorld)).
Proof.
  assert (render (sampleFilters (Some "team-a") None None)
            (after sampleIntervals
               (sampleProps sampleClient
                  (sampleFilters (Some "team-a") None None))
               firstWorld)
          = Insights "team-a" ["idle-cluster"] "cost of group team-a" None
              ["p1"; "p2"] None) as Hrender by (vm_compute; reflexivity).
  split; [exact Hrender|].
  exact (proj1 (selectors_of_dashboard sampleAggregation (sampleChrome true)
                  "2020-10-01" _ _ _ _ _ _ _ _ Hrender)).
Defined.

End PageLayout.
